(* ===== verification/_CoqProject ===== *)
-Q . S2P
Prelude.v
PyDict.v
Schema.v
CatalogueData.v
Queries.v
CatalogueFacts.v
Harmonize.v
AbstractSpec.v
Demo.v
