(* ===== verification/Prelude.v ===== *)
(** * Verification of the unified survey-question schema

    The program ([src/unified_data_schema.py]) is a catalogue of survey
    questions harmonised across the years of a recurring survey, together
    with the queries that filter it and two harmonisation utilities.  It has
    four parts, modelled in this order:

    - the Python values it is built from: insertion-ordered dictionaries,
      lists, unbounded integers and the built-ins the code calls on them
      ([in], [len], [list.index], subscription, [dict.update], item
      assignment, dictionary comprehensions);
    - the data model: the enumerations [QuestionType] and [ResponseScale]
      and the dataclass [QuestionMapping];
    - the class [UnifiedSchema]: its constructor, the four builders that
      return the literal catalogue, and the four queries;
    - the free functions [harmonize_response_scale] and
      [create_harmonized_column_mapping].

    ** Files

    - [Prelude] (this file): the exception monad [py] in which a Python
      built-in that can raise is a value [Ok v] or [Raise e]; the list
      built-ins [py_in], [py_len], [py_index], [py_getitem] with Python's
      behaviour on absent elements and on negative or out-of-range indices;
      the tactics and the hint databases [py] (resolution) and [pyrw]
      (rewriting) the other files use.
    - [PyDict]: a dictionary as the sequence of its items in insertion
      order ([dict K V], a record around [list (K * V)]).  [dict_setitem]
      replaces in place or appends, [dict_update] and [dict_literal] fold
      it, [dict_comp] is the comprehension
      [{k: v for k, v in d.items() if f(k, v)}].  The invariant [dict_wf]
      (no key twice) is preserved by every operation.  [dict_to_map] is the
      abstraction to stdpp's [gmap]; [≡] is Python's [==] on dictionaries
      (same keys, same values, any order) and the operations are [Proper]
      for it.
    - [Schema]: [QuestionType], [ResponseScale] with its member values,
      [QuestionMapping], and the record [UnifiedSchema] of the four
      category dictionaries, each with decidable equality.
    - [CatalogueData]: the eighteen literal questions, the four builders
      [_define_*_questions] as dictionary literals in the order written,
      and the constructor [__init__].
    - [Queries]: [get_all_questions], [get_questions_by_year],
      [get_longitudinal_questions], [get_core_trend_questions] over an
      arbitrary schema value, their functional specifications on every
      input, and the class [CatalogueLaws] that states what a well-formed
      catalogue promises its clients (identifiers unique over the four
      categories, each entry stored under its own identifier, the keys of
      [column_mappings] equal to [years_available], years without
      repetition and not empty).  The theorems of the section [unique]
      need the uniqueness of identifiers only and take it as their one
      hypothesis; the theorems of the section [laws] are proved against the
      class, for any schema that satisfies it.
    - [CatalogueFacts]: the instance of [CatalogueLaws] for the schema
      [__init__] builds (the laws are decidable, so the instance is proved
      by evaluating the decision procedure); what each query returns on
      that schema, for every year and every threshold; the applications of
      the theorems of [Queries] to it.
    - [Harmonize]: [harmonize_response_scale] in the monad [py] with the
      proof that it never raises and equals a pure reference definition;
      [create_harmonized_column_mapping] as the loop the code runs.
    - [AbstractSpec]: the catalogue as finite maps ([gmap]) with union and
      filter, and the refinement theorems: each query on ordered
      dictionaries, and the harmonised column mapping, commutes with
      [dict_to_map].
    - [Demo]: the script under [if __name__ == "__main__"]: the lines it
      prints, as a list of strings, with Python's [str] of an integer and
      of a list of integers.

    ** What the theorems show

    - Dictionaries: [dict_wf] is an invariant of every operation; lookup
      after [dict_setitem], [dict_update] and [dict_comp]; the order of keys
      after an update (old keys keep their place, new keys are appended); a
      comprehension over a well-formed dictionary is a filter of its items.
    - Queries, for every schema: membership in the result of each query is
      exactly membership in the source dictionary together with the
      condition of the comprehension; thresholds at most zero return
      everything; results shrink as the threshold grows; later categories
      win on a clash of identifiers, and under [CatalogueLaws] no clash
      exists and [get_all_questions] is the concatenation of the categories.
    - The literal catalogue: it satisfies [CatalogueLaws]; the keys of
      every column mapping are the years of its question, in order; the
      result of [get_questions_by_year] for every integer year and of
      [get_longitudinal_questions] for every integer threshold.
    - Harmonisation: the function is total (no [ValueError], no
      [IndexError]); it is the identity on responses outside the source
      scale, at positions the target scale lacks, and from a scale to
      itself; into a target without repetition and at least as long as the
      source it is inverted by the swapped call; between each named scale
      and its alternative wording it rewrites the reworded options and
      nothing else.
    - The enumerations: no member is an alias of another, no scale lists
      an option twice, and the number in a scale's name is its length.
    - Refinement: the ordered-dictionary implementation refines the
      finite-map specification, and the queries respect equality of
      dictionaries up to order.
    - The script: the text it prints, line for line.

    The properties listed for the development carry an identifier [C1],
    [C2], ... in the comment that precedes their theorem.

    ** Modelling choices

    - Python integers are unbounded: years, thresholds and indices are [Z],
      and [len] is [Z.of_nat] of the length.  A negative [min_years] is an
      ordinary input.
    - The default argument of [get_longitudinal_questions] is an [option]:
      [None] is the call without the argument.  A call that passes Python's
      [None] explicitly (a [TypeError] at the comparison) is outside the
      model.
    - The record [dict] can hold a key twice, which a Python dictionary
      cannot; [dict_wf] excludes it, every operation preserves [dict_wf],
      and the theorems that need it take it (or [schema_wf]) as a
      hypothesis that every dictionary the program builds satisfies.
    - Python strings are [string]; only equality of strings is used.
    - A dictionary is kept in insertion order because the script iterates
      dictionaries and prints in that order; equality of dictionaries in
      Python ignores the order, which is the relation [≡].
    - The code never mutates a dictionary or a list after it is built, so
      the sharing of one [response_scale] list by several questions, and of
      each [column_mappings] dictionary by the catalogue and the harmonised
      mapping, is not observable; values are modelled without a store.
    - No fuel is used anywhere: every definition is structurally recursive
      or a fold over a list.

    ** Not modelled

    - Console output as an effect: [Demo] models the text printed, not the
      file descriptor.
    - The [notes] and [question_text] fields are carried as data; no
      operation reads them.
    - Mutation of a [QuestionMapping] or of a dictionary after it is
      built: the dataclass is not frozen, but no code of the module writes
      to one. *)

From Stdlib Require Export ZArith.
From stdpp Require Export base tactics option list strings.

#[global] Open Scope Z_scope.
Set Warnings "-clear-no-such-hyp".

(** ** Python exceptions as values *)

Inductive PyExn : Set := ValueError | IndexError | KeyError.

Inductive py (A : Type) : Type :=
| Ok (a : A)
| Raise (e : PyExn).

Arguments Ok {A} a.
Arguments Raise {A} e.

#[export] Instance PyExn_eq_dec : EqDecision PyExn.
Proof. solve_decision. Defined.

#[export] Instance py_eq_dec `{EqDecision A} : EqDecision (py A).
Proof. solve_decision. Defined.

#[export] Instance py_ret : MRet py := @Ok.

#[export] Instance py_bind : MBind py := λ A B f m,
  match m with
  | Ok a => f a
  | Raise e => Raise e
  end.

#[export] Instance py_fmap : FMap py := λ A B f m,
  match m with
  | Ok a => Ok (f a)
  | Raise e => Raise e
  end.

(** [returns m v]: the computation finishes with value [v], no exception. *)
Definition returns {A} (m : py A) (v : A) : Prop := m = Ok v.

Definition raises {A} (m : py A) : bool :=
  match m with
  | Ok _ => false
  | Raise _ => true
  end.

(** ** Python list built-ins *)

Section py_list.
Context `{EqDecision A}.
Implicit Types (x y : A) (l : list A) (i : Z) (n : nat).

(** [x in l] *)
Definition py_in x l : bool := bool_decide (x ∈ l).

(** [len(l)] *)
Definition py_len l : Z := Z.of_nat (length l).

(** Position of the first element equal to [x]. *)
Fixpoint list_index x l : option nat :=
  match l with
  | [] => None
  | y :: l' => if decide (x = y) then Some 0%nat else S <$> list_index x l'
  end.

(** [l.index(x)]: raises [ValueError] when [x] is not in [l]. *)
Definition py_index x l : py Z :=
  match list_index x l with
  | Some n => Ok (Z.of_nat n)
  | None => Raise ValueError
  end.

(** [l[i]]: a negative index counts from the end; out of range raises. *)
Definition py_getitem l i : py A :=
  let j := if bool_decide (i < 0) then i + py_len l else i in
  if bool_decide (0 ≤ j < py_len l) then
    match l !! Z.to_nat j with
    | Some a => Ok a
    | None => Raise IndexError
    end
  else Raise IndexError.

End py_list.

(** ** Tactics and hint databases *)

Create HintDb py discriminated.
Create Rewrite HintDb pyrw.

(** Case analysis on the first [decide] or [bool_decide] of the goal, then
    the clean-up every such split needs. *)
Ltac case_dec :=
  first [case_decide | case_bool_decide]; simplify_eq/=; try done.

(** Unfold a Python computation down to its [match] and evaluate binds. *)
Ltac py_simpl :=
  repeat (progress (unfold returns, mbind, mret, py_bind, py_ret, fmap, py_fmap in *;
                    simpl in *)).

(** ** Lemmas on the list built-ins *)

Section py_list_lemmas.
Context `{EqDecision A}.
Implicit Types (x y : A) (l : list A) (i : Z) (n : nat).

Lemma py_in_true x l : py_in x l = true ↔ x ∈ l.
Proof. unfold py_in. by rewrite bool_decide_eq_true. Qed.

Lemma py_in_false x l : py_in x l = false ↔ x ∉ l.
Proof. unfold py_in. by rewrite bool_decide_eq_false. Qed.

Lemma py_len_nonneg l : 0 ≤ py_len l.
Proof. unfold py_len. lia. Qed.

Lemma py_len_app l1 l2 : py_len (l1 ++ l2) = py_len l1 + py_len l2.
Proof. unfold py_len. rewrite length_app. lia. Qed.

Lemma list_index_None x l : list_index x l = None ↔ x ∉ l.
Proof.
  induction l as [|y l IH]; simpl.
  - split; [intros _; apply not_elem_of_nil | done].
  - rewrite not_elem_of_cons. case_decide; [naive_solver|].
    rewrite fmap_None, IH. naive_solver.
Qed.

Lemma list_index_is_Some x l : is_Some (list_index x l) ↔ x ∈ l.
Proof.
  rewrite <-not_eq_None_Some, list_index_None.
  destruct (decide (x ∈ l)); naive_solver.
Qed.

(** The index found is a position of [x], and the first one. *)
Lemma list_index_Some x l n :
  list_index x l = Some n ↔
  l !! n = Some x ∧ ∀ m y, l !! m = Some y → (m < n)%nat → y ≠ x.
Proof.
  revert n. induction l as [|y l IH]; intros n; simpl.
  - naive_solver.
  - case_decide as Hxy.
    + subst y. split.
      * intros [= <-]. split; [done | intros; exfalso; lia].
      * intros [Hn Hfirst]. destruct n as [|n]; [done|].
        exfalso. apply (Hfirst 0%nat x); [done | lia | done].
    + rewrite fmap_Some. split.
      * intros (m & Hm & ->). apply IH in Hm as [Hm Hfirst].
        split; [done|]. intros [|k] z; simpl; [naive_solver|].
        intros Hk Hlt. apply (Hfirst k); [done | lia].
      * intros [Hn Hfirst]. destruct n as [|n]; [naive_solver|].
        exists n. split; [|done]. apply IH. split; [done|].
        intros k z Hk Hlt. apply (Hfirst (S k)); [done | lia].
Qed.

Lemma list_index_lookup x l n : list_index x l = Some n → l !! n = Some x.
Proof. by intros [? _]%list_index_Some. Qed.

Lemma list_index_lt x l n : list_index x l = Some n → (n < length l)%nat.
Proof. intros ?%list_index_lookup. by eapply lookup_lt_Some. Qed.

(** In a list without repetition every position is the first. *)
Lemma list_index_NoDup x l n :
  NoDup l → l !! n = Some x → list_index x l = Some n.
Proof.
  intros Hnd Hn. apply list_index_Some. split; [done|].
  intros m y Hm Hlt ->.
  assert (m = n) by (by eapply NoDup_lookup). lia.
Qed.

Lemma py_index_Ok x l i :
  py_index x l = Ok i ↔ ∃ n, i = Z.of_nat n ∧ list_index x l = Some n.
Proof. unfold py_index. destruct (list_index x l); naive_solver. Qed.

Lemma py_index_in x l : x ∈ l → ∃ n, py_index x l = Ok (Z.of_nat n) ∧ l !! n = Some x.
Proof.
  intros [n Hn]%list_index_is_Some. exists n. unfold py_index. rewrite Hn.
  eauto using list_index_lookup.
Qed.

Lemma py_index_not_in x l : x ∉ l → py_index x l = Raise ValueError.
Proof. intros Hx%list_index_None. unfold py_index. by rewrite Hx. Qed.

(** On a non-negative index subscription is the bounds-checked lookup. *)
Lemma py_getitem_nonneg l i :
  0 ≤ i →
  py_getitem l i =
    match l !! Z.to_nat i with Some a => Ok a | None => Raise IndexError end.
Proof.
  intros Hi. unfold py_getitem, py_len.
  rewrite (bool_decide_eq_false_2 (i < 0)) by lia.
  case_bool_decide; [done|].
  rewrite lookup_ge_None_2; [done | lia].
Qed.

Lemma py_getitem_nat l n x : l !! n = Some x → py_getitem l (Z.of_nat n) = Ok x.
Proof. intros Hn. rewrite py_getitem_nonneg by lia. by rewrite Nat2Z.id, Hn. Qed.

Lemma py_getitem_ge l i : py_len l ≤ i → py_getitem l i = Raise IndexError.
Proof.
  intros Hi. pose proof (py_len_nonneg l).
  rewrite py_getitem_nonneg by lia.
  rewrite lookup_ge_None_2; [done | unfold py_len in *; lia].
Qed.

(** Subscription guarded by [i < len(l)], as the code writes it, is the
    lookup with a default. *)
Lemma py_getitem_guarded l n d :
  (if Z.of_nat n <? py_len l then py_getitem l (Z.of_nat n) else Ok d) =
    Ok (default d (l !! n)).
Proof.
  destruct (Z.ltb_spec (Z.of_nat n) (py_len l)) as [Hlt|Hge]; unfold py_len in *.
  - destruct (lookup_lt_is_Some_2 l n) as [x Hx]; [lia|].
    rewrite Hx. by apply py_getitem_nat.
  - rewrite lookup_ge_None_2; [done | lia].
Qed.

(** A negative index [-k] reads the [k]-th element from the end. *)
Lemma py_getitem_neg l i x :
  - py_len l ≤ i < 0 → l !! Z.to_nat (i + py_len l) = Some x →
  py_getitem l i = Ok x.
Proof.
  intros Hi Hx. unfold py_getitem.
  rewrite (bool_decide_eq_true_2 (i < 0)) by lia.
  rewrite bool_decide_eq_true_2 by lia.
  by rewrite Hx.
Qed.

Lemma py_getitem_Ok_elem_of l i x : py_getitem l i = Ok x → x ∈ l.
Proof.
  unfold py_getitem. case_bool_decide; [|done].
  destruct (l !! _) eqn:Hl; [|done].
  intros [= <-]. by eapply list_elem_of_lookup_2.
Qed.

(** *** The built-ins that can raise, in full *)

(** [l.index(x)] returns the first position of [x], and raises [ValueError]
    exactly when [x] is not in [l]. *)
Lemma py_index_spec x l :
  (py_index x l = Raise ValueError ↔ x ∉ l) ∧
  ∀ i, py_index x l = Ok i ↔
       ∃ n, i = Z.of_nat n ∧ l !! n = Some x ∧
            ∀ m, (m < n)%nat → l !! m ≠ Some x.
Proof.
  split.
  - rewrite <-list_index_None. unfold py_index.
    destruct (list_index x l); naive_solver.
  - intros i. rewrite py_index_Ok. setoid_rewrite list_index_Some.
    split; intros (n & -> & Hn & Hfirst); exists n; split_and!; try done.
    + intros m Hm Hx. by apply (Hfirst m x).
    + intros m y Hy Hm ->. by apply (Hfirst m).
Qed.

(** [l[i]] returns the element at [i] counted from the start when [i] is
    not negative and from the end when it is, and raises [IndexError]
    exactly when [i] is outside [-len(l) .. len(l) - 1]. *)
Lemma py_getitem_spec l i :
  (py_getitem l i = Raise IndexError ↔ ¬ (- py_len l ≤ i < py_len l)) ∧
  ∀ x, py_getitem l i = Ok x ↔
       0 ≤ i < py_len l ∧ l !! Z.to_nat i = Some x ∨
       - py_len l ≤ i < 0 ∧ l !! Z.to_nat (i + py_len l) = Some x.
Proof.
  pose proof (py_len_nonneg l) as Hlen. unfold py_getitem.
  assert (∀ j, 0 ≤ j < py_len l → is_Some (l !! Z.to_nat j)) as Hsome.
  { intros j Hj. apply lookup_lt_is_Some_2. unfold py_len in Hj. lia. }
  destruct (bool_decide_reflect (i < 0)) as [Hneg|Hpos];
    case_bool_decide as Hin.
  - destruct (Hsome _ Hin) as [y Hy]. rewrite Hy.
    split; [split; [done | lia]|]. intros x. naive_solver lia.
  - split; [split; [lia | done]|]. intros x. naive_solver lia.
  - destruct (Hsome _ Hin) as [y Hy]. rewrite Hy.
    split; [split; [done | lia]|]. intros x. naive_solver lia.
  - split; [split; [lia | done]|]. intros x. naive_solver lia.
Qed.

End py_list_lemmas.

(** ** Generic list lemmas *)

(** Two conditions that agree on the elements of a list select the same
    elements. *)
Lemma list_filter_ext_in {A} (P Q : A → Prop)
    `{!∀ x, Decision (P x), !∀ x, Decision (Q x)} (l : list A) :
  (∀ x, x ∈ l → P x ↔ Q x) → filter P l = filter Q l.
Proof.
  induction l as [|x l IH]; intros HPQ; [done|].
  rewrite !filter_cons, IH by (intros; apply HPQ; by right).
  pose proof (HPQ x (list_elem_of_here _ _)).
  repeat case_decide; naive_solver.
Qed.

Lemma filter_true_id {A} (P : A → Prop) `{!∀ x, Decision (P x)} (l : list A) :
  (∀ x, x ∈ l → P x) → filter P l = l.
Proof.
  induction l as [|x l IH]; intros HP; [done|].
  rewrite filter_cons, decide_True by (apply HP; left).
  rewrite IH; [done|]. intros; apply HP; by right.
Qed.

Lemma filter_false_nil {A} (P : A → Prop) `{!∀ x, Decision (P x)} (l : list A) :
  (∀ x, x ∈ l → ¬ P x) → filter P l = [].
Proof.
  induction l as [|x l IH]; intros HP; [done|].
  rewrite filter_cons, decide_False by (apply HP; left).
  apply IH. intros; apply HP; by right.
Qed.

#[export] Hint Resolve py_len_nonneg list_index_lookup list_index_lt : py.
#[export] Hint Rewrite @py_len_app : pyrw.
