(* ===== verification/PyDict.v ===== *)
(** * Python dictionaries in insertion order

    A [dict K V] is the sequence of its items in the order the keys were
    first inserted, which is the order Python iterates a dictionary in.
    The operations are the ones the program calls: [d.get(k)], [d[k]],
    [k in d], [d[k] = v], [d.update(o)], a literal [{k1: v1, ...}], the
    views [keys()], [values()], [items()], [len(d)] and the comprehension
    [{k: v for k, v in d.items() if f(k, v)}].

    The invariant [dict_wf] (no key twice) holds of every dictionary Python
    can build; the operations preserve it.  [dict_to_map] forgets the order;
    [≡] is Python's [==] on dictionaries. *)

From S2P Require Import Prelude.
From stdpp Require Import gmap.

#[local] Open Scope Z_scope.

Set Warnings "-clear-no-such-hyp".

Record dict (K V : Type) : Type := Dict { dict_items : list (K * V) }.

Arguments Dict {K V} _.
Arguments dict_items {K V} _.

Declare Scope dict_scope.
Delimit Scope dict_scope with dict.
Bind Scope dict_scope with dict.

(** ** Operations on the item sequence *)

Section items.
Context `{EqDecision K} {V : Type}.
Implicit Types (k : K) (v : V) (l : list (K * V)).

(** The value stored under [k]: the first item with that key. *)
Fixpoint items_get k l : option V :=
  match l with
  | [] => None
  | (k', v) :: l' => if decide (k = k') then Some v else items_get k l'
  end.

(** [d[k] = v]: an existing key keeps its place and gets the new value, a
    new key is appended. *)
Fixpoint items_set k v l : list (K * V) :=
  match l with
  | [] => [(k, v)]
  | (k', v') :: l' =>
      if decide (k = k') then (k', v) :: l' else (k', v') :: items_set k v l'
  end.

End items.

(** ** Operations on dictionaries *)

Section dict_ops.
Context `{EqDecision K} {V : Type}.
Implicit Types (k : K) (v : V) (d o : dict K V) (f : K → V → bool).

#[export] Instance dict_empty : Empty (dict K V) := Dict [].

(** [d.get(k)] *)
Definition dict_get k d : option V := items_get k (dict_items d).

#[export] Instance dict_lookup : Lookup K V (dict K V) := dict_get.

(** [d[k]]: raises [KeyError] on an absent key. *)
Definition dict_getitem k d : py V :=
  match d !! k with
  | Some v => Ok v
  | None => Raise KeyError
  end.

Definition dict_keys d : list K := (dict_items d).*1.
Definition dict_values d : list V := (dict_items d).*2.

(** [k in d] *)
Definition dict_contains k d : bool := bool_decide (k ∈ dict_keys d).

(** [len(d)] *)
Definition dict_len d : Z := py_len (dict_items d).

(** [d[k] = v] *)
Definition dict_setitem k v d : dict K V := Dict (items_set k v (dict_items d)).

#[export] Instance dict_insert : Insert K V (dict K V) := dict_setitem.

(** The loop [for k, v in l: if f(k, v): acc[k] = v], which update, literal
    and comprehension all run. *)
Definition items_fold f (l : list (K * V)) (acc : dict K V) : dict K V :=
  fold_left (λ acc kv, if f kv.1 kv.2 then <[kv.1:=kv.2]> acc else acc) l acc.

(** [d.update(o)], as the new value of [d]. *)
Definition dict_update d o : dict K V :=
  fold_left (λ acc kv, <[kv.1:=kv.2]> acc) (dict_items o) d.

(** [{k1: v1, ..., kn: vn}] *)
Definition dict_literal (l : list (K * V)) : dict K V :=
  fold_left (λ acc kv, <[kv.1:=kv.2]> acc) l ∅.

(** [{k: v for k, v in d.items() if f(k, v)}] *)
Definition dict_comp f d : dict K V := items_fold f (dict_items d) ∅.

(** No key occurs twice. *)
Definition dict_wf d : Prop := NoDup (dict_keys d).

#[export] Instance dict_wf_dec d : Decision (dict_wf d).
Proof. unfold dict_wf. apply _. Defined.

(** Python's [d1 == d2]: the same keys with the same values. *)
#[export] Instance dict_equiv : Equiv (dict K V) := λ d1 d2,
  ∀ k, d1 !! k = d2 !! k.

End dict_ops.

(** The loop [for k, v in l: acc[k] = g(k, v)], which builds a dictionary
    from the items of another. *)
Definition items_build `{EqDecision K} {V W : Type} (g : K → V → W)
    (l : list (K * V)) (acc : dict K W) : dict K W :=
  fold_left (λ acc kv, <[kv.1:=g kv.1 kv.2]> acc) l acc.

Infix "◁" := dict_update (at level 50, left associativity) : dict_scope.

#[export] Instance dict_eq_dec `{EqDecision K, EqDecision V} : EqDecision (dict K V).
Proof. solve_decision. Defined.

(** The finite map a dictionary denotes. *)
Definition dict_to_map `{Countable K} {V} (d : dict K V) : gmap K V :=
  list_to_map (dict_items d).

(** ** Lemmas on item sequences *)

Section items_lemmas.
Context `{EqDecision K} {V : Type}.
Implicit Types (k : K) (v : V) (l : list (K * V)).

Lemma items_get_None k l : items_get k l = None ↔ k ∉ l.*1.
Proof.
  induction l as [|[k' v'] l IH]; simpl.
  - split; [intros _; apply not_elem_of_nil | done].
  - rewrite not_elem_of_cons. case_decide; naive_solver.
Qed.

Lemma items_get_is_Some k l : is_Some (items_get k l) ↔ k ∈ l.*1.
Proof.
  rewrite <-not_eq_None_Some, items_get_None.
  destruct (decide (k ∈ l.*1)); naive_solver.
Qed.

Lemma items_get_Some_elem_of k v l : items_get k l = Some v → (k, v) ∈ l.
Proof.
  induction l as [|[k' v'] l IH]; simpl; [done|].
  case_decide; [intros [= ->]; subst; left | right; auto].
Qed.

Lemma items_get_NoDup k v l : NoDup l.*1 → (k, v) ∈ l → items_get k l = Some v.
Proof.
  induction l as [|[k' v'] l IH]; simpl; [by intros _ ?%elem_of_nil|].
  intros [Hk' Hnd]%NoDup_cons [[= -> ->]|Hin]%elem_of_cons.
  - by rewrite decide_True.
  - rewrite decide_False; [auto|]. intros ->.
    apply Hk', list_elem_of_fmap. by exists (k', v).
Qed.

Lemma items_get_app k l1 l2 :
  items_get k (l1 ++ l2) =
    match items_get k l1 with Some v => Some v | None => items_get k l2 end.
Proof. induction l1 as [|[k' v'] l1 IH]; simpl; [done|]. by case_decide. Qed.

(** Lookup after an assignment. *)
Lemma items_get_set k k' v l :
  items_get k' (items_set k v l) =
    if decide (k = k') then Some v else items_get k' l.
Proof.
  induction l as [|[k0 v0] l IH]; simpl.
  - repeat case_decide; naive_solver.
  - repeat (case_decide; simplify_eq/=); try done; by rewrite ?IH, ?decide_False.
Qed.

(** Assigning to an existing key leaves the keys as they are. *)
Lemma items_set_keys_in k v l : k ∈ l.*1 → (items_set k v l).*1 = l.*1.
Proof.
  induction l as [|[k' v'] l IH]; simpl; [by intros ?%elem_of_nil|].
  intros Hin. case_decide; simpl; [done|]. f_equal. apply IH.
  apply elem_of_cons in Hin as [?|?]; [congruence | done].
Qed.

(** Assigning to a new key appends the item. *)
Lemma items_set_fresh k v l : k ∉ l.*1 → items_set k v l = l ++ [(k, v)].
Proof.
  induction l as [|[k' v'] l IH]; simpl; [done|].
  intros [? ?]%not_elem_of_cons. rewrite decide_False by done. by rewrite IH.
Qed.

Lemma items_set_keys k v l :
  (items_set k v l).*1 = if bool_decide (k ∈ l.*1) then l.*1 else l.*1 ++ [k].
Proof.
  case_bool_decide.
  - by apply items_set_keys_in.
  - rewrite items_set_fresh by done. by rewrite fmap_app.
Qed.

Lemma items_set_NoDup k v l : NoDup l.*1 → NoDup (items_set k v l).*1.
Proof.
  intros Hnd. rewrite items_set_keys. case_bool_decide; [done|].
  apply NoDup_app. split_and!; [done | | apply NoDup_singleton].
  by intros k' Hk' ->%list_elem_of_singleton.
Qed.

End items_lemmas.

(** ** Lemmas on dictionaries *)

Section dict_lemmas.
Context `{EqDecision K} {V : Type}.
Implicit Types (k : K) (v : V) (d o acc : dict K V) (l : list (K * V)).
Implicit Types (f : K → V → bool).

Lemma dict_lookup_unfold d k : d !! k = items_get k (dict_items d).
Proof. done. Qed.

Lemma dict_insert_unfold k v d :
  <[k:=v]> d = Dict (items_set k v (dict_items d)).
Proof. done. Qed.

Lemma dict_lookup_empty k : (∅ : dict K V) !! k = None.
Proof. done. Qed.

Lemma dict_lookup_None d k : d !! k = None ↔ k ∉ dict_keys d.
Proof. apply items_get_None. Qed.

Lemma dict_lookup_is_Some d k : is_Some (d !! k) ↔ k ∈ dict_keys d.
Proof. apply items_get_is_Some. Qed.

Lemma dict_lookup_Some_elem_of d k v : d !! k = Some v → (k, v) ∈ dict_items d.
Proof. apply items_get_Some_elem_of. Qed.

Lemma dict_lookup_Some d k v :
  dict_wf d → d !! k = Some v ↔ (k, v) ∈ dict_items d.
Proof. split; [apply items_get_Some_elem_of | by apply items_get_NoDup]. Qed.

Lemma dict_contains_true k d : dict_contains k d = true ↔ is_Some (d !! k).
Proof. unfold dict_contains. by rewrite bool_decide_eq_true, dict_lookup_is_Some. Qed.

Lemma dict_getitem_Ok k d v : dict_getitem k d = Ok v ↔ d !! k = Some v.
Proof. unfold dict_getitem. destruct (d !! k); naive_solver. Qed.

Lemma dict_getitem_KeyError k d :
  dict_getitem k d = Raise KeyError ↔ dict_contains k d = false.
Proof.
  unfold dict_getitem, dict_contains.
  rewrite bool_decide_eq_false, <-dict_lookup_None.
  destruct (d !! k); naive_solver.
Qed.

(** *** Item assignment *)

Lemma dict_lookup_insert k k' v d :
  <[k:=v]> d !! k' = if decide (k = k') then Some v else d !! k'.
Proof. apply items_get_set. Qed.

Lemma dict_lookup_insert_eq k v d : <[k:=v]> d !! k = Some v.
Proof. rewrite dict_lookup_insert. by rewrite decide_True. Qed.

Lemma dict_lookup_insert_ne k k' v d : k ≠ k' → <[k:=v]> d !! k' = d !! k'.
Proof. intros. rewrite dict_lookup_insert. by rewrite decide_False. Qed.

Lemma dict_keys_insert k v d :
  dict_keys (<[k:=v]> d) =
    if bool_decide (k ∈ dict_keys d) then dict_keys d else dict_keys d ++ [k].
Proof. apply items_set_keys. Qed.

Lemma dict_wf_empty : dict_wf (∅ : dict K V).
Proof. apply NoDup_nil_2. Qed.

Lemma dict_wf_insert k v d : dict_wf d → dict_wf (<[k:=v]> d).
Proof. apply items_set_NoDup. Qed.

(** *** The assignment loop *)

Lemma items_fold_cons f k v l acc :
  items_fold f ((k, v) :: l) acc =
    items_fold f l (if f k v then <[k:=v]> acc else acc).
Proof. done. Qed.

Lemma items_filter_cons f k v l :
  filter (λ kv, f kv.1 kv.2) ((k, v) :: l) =
    if f k v then (k, v) :: filter (λ kv, f kv.1 kv.2) l
    else filter (λ kv, f kv.1 kv.2) l.
Proof. rewrite filter_cons. simpl. by destruct (f k v). Qed.

Lemma items_fold_wf f l acc : dict_wf acc → dict_wf (items_fold f l acc).
Proof.
  revert acc. induction l as [|[k v] l IH]; intros acc Hwf; [done|].
  rewrite items_fold_cons. apply IH. destruct (f k v); auto using dict_wf_insert.
Qed.

(** Lookup after the loop over a sequence with distinct keys: the item of
    the sequence wins when the condition holds of it. *)
Lemma items_fold_lookup f l acc k :
  NoDup l.*1 →
  items_fold f l acc !! k =
    match items_get k l with
    | Some v => if f k v then Some v else acc !! k
    | None => acc !! k
    end.
Proof.
  revert acc. induction l as [|[k0 v0] l IH]; intros acc; [done|].
  rewrite fmap_cons, NoDup_cons. intros [Hk0 Hnd]. simpl in Hk0.
  rewrite items_fold_cons, IH by done. simpl. case_decide as Hk.
  - subst k0. apply items_get_None in Hk0 as ->.
    destruct (f k v0); [apply dict_lookup_insert_eq | done].
  - destruct (f k0 v0); [|done].
    rewrite dict_lookup_insert_ne by done. done.
Qed.

(** When no key of the sequence is in the accumulator, the loop appends the
    items that satisfy the condition, in order. *)
Lemma items_fold_fresh f l acc :
  NoDup l.*1 → (∀ k, k ∈ l.*1 → k ∉ dict_keys acc) →
  items_fold f l acc = Dict (dict_items acc ++ filter (λ kv, f kv.1 kv.2) l).
Proof.
  revert acc. induction l as [|[k0 v0] l IH]; intros [acc].
  { intros _ _. simpl. by rewrite filter_nil, app_nil_r. }
  rewrite fmap_cons, NoDup_cons. intros [Hk0 Hnd] Hfresh. simpl in Hk0, Hfresh.
  rewrite items_fold_cons, items_filter_cons. destruct (f k0 v0) eqn:Hf.
  - rewrite dict_insert_unfold, items_set_fresh by (apply Hfresh; left).
    rewrite IH; simpl; [by rewrite <-app_assoc | done |].
    intros k Hk. unfold dict_keys in *. simpl in *.
    rewrite fmap_app, not_elem_of_app. split.
    + apply Hfresh. by right.
    + intros ->%list_elem_of_singleton. done.
  - apply IH; [done|]. intros k Hk. apply Hfresh. by right.
Qed.

(** The keys after the loop: the old keys in their places, then the new
    keys of the selected items in the order of the sequence. *)
Lemma items_fold_keys f l acc :
  NoDup l.*1 →
  dict_keys (items_fold f l acc) =
    dict_keys acc ++
    filter (λ k, k ∉ dict_keys acc) (filter (λ kv, f kv.1 kv.2) l).*1.
Proof.
  revert acc. induction l as [|[k0 v0] l IH]; intros acc.
  { intros _. by rewrite filter_nil, app_nil_r. }
  rewrite fmap_cons, NoDup_cons. intros [Hk0 Hnd]. simpl in Hk0.
  rewrite items_fold_cons, IH, items_filter_cons by done.
  destruct (f k0 v0) eqn:Hf; [|done].
  rewrite dict_keys_insert, fmap_cons, filter_cons. cbn [fst].
  case_bool_decide as Hin.
  - by rewrite decide_False by naive_solver.
  - rewrite decide_True by done. rewrite <-app_assoc. simpl. do 2 f_equal.
    apply list_filter_ext_in. intros k Hk.
    rewrite not_elem_of_app, list_elem_of_singleton.
    apply list_elem_of_fmap in Hk as (kv & -> & [_ Hkv]%list_elem_of_filter).
    assert (kv.1 ≠ k0); [|naive_solver].
    intros <-. apply Hk0, list_elem_of_fmap. eauto.
Qed.

(** *** Update, literal and comprehension as instances of the loop *)

Lemma dict_update_fold d o :
  dict_update d o = items_fold (λ _ _, true) (dict_items o) d.
Proof. done. Qed.

Lemma dict_literal_fold l : dict_literal l = items_fold (λ _ _, true) l ∅.
Proof. done. Qed.

Lemma dict_literal_update l : dict_literal l = dict_update ∅ (Dict l).
Proof. done. Qed.

Lemma items_filter_true l : filter (λ kv : K * V, (λ _ _, true) kv.1 kv.2) l = l.
Proof. by apply filter_true_id. Qed.

(** *** Update *)

Lemma dict_wf_update d o : dict_wf d → dict_wf (dict_update d o).
Proof. rewrite dict_update_fold. apply items_fold_wf. Qed.

(** After [d.update(o)] a key of [o] has the value [o] gives it, any other
    key the value it had in [d]. *)
Lemma dict_lookup_update d o k :
  dict_wf o → dict_update d o !! k = o !! k ∪ d !! k.
Proof.
  intros Ho. rewrite dict_update_fold, items_fold_lookup by done.
  rewrite (dict_lookup_unfold o).
  by destruct (items_get k (dict_items o)), (d !! k).
Qed.

(** The keys of [d] keep their places; the keys new in [o] follow in the
    order of [o]. *)
Lemma dict_keys_update d o :
  dict_wf o →
  dict_keys (dict_update d o) =
    dict_keys d ++ filter (λ k, k ∉ dict_keys d) (dict_keys o).
Proof.
  intros Ho. rewrite dict_update_fold, items_fold_keys by done.
  by rewrite items_filter_true.
Qed.

(** Updating with a dictionary whose keys are all new appends its items. *)
Lemma dict_update_disjoint d o :
  dict_wf o → (∀ k, k ∈ dict_keys o → k ∉ dict_keys d) →
  dict_update d o = Dict (dict_items d ++ dict_items o).
Proof.
  intros Ho Hdisj. rewrite dict_update_fold, items_fold_fresh by done.
  by rewrite items_filter_true.
Qed.

Lemma dict_update_empty_l o : dict_wf o → dict_update ∅ o = o.
Proof.
  intros Ho. rewrite dict_update_disjoint; [by destruct o | done |].
  intros k _. apply not_elem_of_nil.
Qed.

(** *** Literal *)

Lemma dict_wf_literal l : dict_wf (dict_literal l).
Proof. rewrite dict_literal_fold. apply items_fold_wf, dict_wf_empty. Qed.

(** A literal whose keys are distinct is the dictionary of its items, in
    the order written. *)
Lemma dict_literal_NoDup l : NoDup l.*1 → dict_literal l = Dict l.
Proof. intros Hl. rewrite dict_literal_update. by apply (dict_update_empty_l (Dict l)). Qed.

(** *** Comprehension *)

Lemma dict_wf_comp f d : dict_wf (dict_comp f d).
Proof. apply items_fold_wf, dict_wf_empty. Qed.

(** A comprehension over a dictionary keeps the items that satisfy the
    condition, in their order. *)
Lemma dict_comp_filter f d :
  dict_wf d → dict_comp f d = Dict (filter (λ kv, f kv.1 kv.2) (dict_items d)).
Proof.
  intros Hd. unfold dict_comp. rewrite items_fold_fresh; [done | done |].
  intros k _. apply not_elem_of_nil.
Qed.

Lemma dict_lookup_comp f d k :
  dict_wf d →
  dict_comp f d !! k = d !! k ≫= λ v, if f k v then Some v else None.
Proof.
  intros Hd. unfold dict_comp. rewrite items_fold_lookup by done.
  rewrite (dict_lookup_unfold d). by destruct (items_get k (dict_items d)).
Qed.

Lemma dict_lookup_comp_Some f d k v :
  dict_wf d → dict_comp f d !! k = Some v ↔ d !! k = Some v ∧ f k v = true.
Proof.
  intros Hd. rewrite dict_lookup_comp by done.
  destruct (d !! k) as [v'|]; simpl; [|naive_solver].
  destruct (f k v') eqn:Hf; (split; [intros ?|intros [? ?]]);
    simplify_eq; auto; congruence.
Qed.

(** The keys of a comprehension are a sublist of the keys of its source. *)
Lemma dict_keys_comp_sublist f d :
  dict_wf d → dict_keys (dict_comp f d) `sublist_of` dict_keys d.
Proof.
  intros Hd. rewrite dict_comp_filter by done.
  apply fmap_sublist, sublist_filter.
Qed.

(** A condition that holds of every item selects the whole dictionary; one
    that holds of none selects nothing. *)
Lemma dict_comp_all f d :
  dict_wf d → (∀ k v, (k, v) ∈ dict_items d → f k v = true) → dict_comp f d = d.
Proof.
  intros Hd Hf. rewrite dict_comp_filter by done. destruct d as [l]. f_equal.
  apply filter_true_id. intros [k v] Hkv. apply Is_true_true. by apply Hf.
Qed.

Lemma dict_comp_none f d :
  dict_wf d → (∀ k v, (k, v) ∈ dict_items d → f k v = false) → dict_comp f d = ∅.
Proof.
  intros Hd Hf. rewrite dict_comp_filter by done. unfold empty, dict_empty.
  f_equal. apply filter_false_nil. intros [k v] Hkv.
  rewrite Is_true_false. by apply Hf.
Qed.

End dict_lemmas.

(** ** Dictionaries up to order, and the finite maps they denote *)

Section dict_abstraction.
Context `{Countable K} {V : Type}.
Implicit Types (k : K) (v : V) (d o : dict K V) (f : K → V → bool).

Lemma lookup_dict_to_map d k : dict_to_map d !! k = d !! k.
Proof.
  destruct d as [l]. unfold dict_to_map. rewrite dict_lookup_unfold. simpl.
  induction l as [|[k' v'] l IH]; simpl; [apply lookup_empty|].
  rewrite lookup_insert, IH. repeat case_decide; congruence.
Qed.

Lemma dict_equiv_to_map d1 d2 : d1 ≡ d2 ↔ dict_to_map d1 = dict_to_map d2.
Proof.
  split.
  - intros Heq. apply map_eq. intros k. by rewrite !lookup_dict_to_map.
  - intros Heq k. by rewrite <-!lookup_dict_to_map, Heq.
Qed.

#[export] Instance dict_equiv_equivalence : Equivalence (≡@{dict K V}).
Proof.
  split.
  - by intros d k.
  - intros d1 d2 Heq k. by rewrite Heq.
  - intros d1 d2 d3 H12 H23 k. by rewrite H12, H23.
Qed.

#[export] Instance dict_lookup_proper k :
  Proper ((≡) ==> (=)) (λ d : dict K V, d !! k).
Proof. intros d1 d2 Heq. apply Heq. Qed.

#[export] Instance dict_to_map_proper :
  Proper ((≡) ==> (=)) (dict_to_map (K:=K) (V:=V)).
Proof. intros d1 d2. apply dict_equiv_to_map. Qed.

#[export] Instance dict_setitem_proper k v :
  Proper ((≡) ==> (≡)) (dict_setitem (V:=V) k v).
Proof.
  intros d1 d2 Heq k'. change (<[k:=v]> d1 !! k' = <[k:=v]> d2 !! k').
  by rewrite !dict_lookup_insert, Heq.
Qed.

(** Updating equal dictionaries with the same dictionary gives equal
    dictionaries, whatever the orders. *)
#[export] Instance dict_update_proper :
  Proper ((≡) ==> (=) ==> (≡)) (dict_update (K:=K) (V:=V)).
Proof.
  intros d1 d2 Heq o ? <-. unfold dict_update.
  revert d1 d2 Heq. induction (dict_items o) as [|[k v] l IH]; intros d1 d2 Heq;
    [done|].
  simpl. apply IH. by apply dict_setitem_proper.
Qed.

Lemma dict_to_map_empty : dict_to_map (∅ : dict K V) = ∅.
Proof. done. Qed.

Lemma dict_to_map_insert k v d :
  dict_to_map (<[k:=v]> d) = <[k:=v]> (dict_to_map d).
Proof.
  apply map_eq. intros k'.
  by rewrite lookup_dict_to_map, dict_lookup_insert, lookup_insert, lookup_dict_to_map.
Qed.

(** [d.update(o)] is the union in which [o] wins. *)
Lemma dict_to_map_update d o :
  dict_wf o → dict_to_map (dict_update d o) = dict_to_map o ∪ dict_to_map d.
Proof.
  intros Ho. apply map_eq. intros k.
  rewrite lookup_dict_to_map, dict_lookup_update, lookup_union by done.
  by rewrite !lookup_dict_to_map.
Qed.

(** A comprehension is the filter of the finite map. *)
Lemma dict_to_map_comp f d :
  dict_wf d →
  dict_to_map (dict_comp f d) = filter (λ kv, f kv.1 kv.2) (dict_to_map d).
Proof.
  intros Hd. apply map_eq. intros k.
  rewrite lookup_dict_to_map, dict_lookup_comp, map_lookup_filter by done.
  rewrite lookup_dict_to_map. destruct (d !! k) as [v|]; simpl; [|done].
  by destruct (f k v).
Qed.

Lemma dom_dict_to_map d : dom (dict_to_map d) = list_to_set (dict_keys d).
Proof. apply dom_list_to_map_L. Qed.

Lemma dict_items_NoDup d : dict_wf d → NoDup (dict_items d).
Proof. apply NoDup_fmap_1. Qed.

(** Two dictionaries are equal in Python's sense exactly when their items
    are the same up to order. *)
Lemma dict_equiv_Permutation d1 d2 :
  dict_wf d1 → dict_wf d2 → d1 ≡ d2 ↔ dict_items d1 ≡ₚ dict_items d2.
Proof.
  intros Hd1 Hd2. split.
  - intros Heq. apply NoDup_Permutation; [by apply dict_items_NoDup..|].
    intros [k v]. by rewrite <-!dict_lookup_Some, Heq.
  - intros Hperm k. apply option_eq. intros v.
    by rewrite !dict_lookup_Some, Hperm.
Qed.

Lemma dict_len_size d : dict_wf d → dict_len d = Z.of_nat (size (dict_to_map d)).
Proof.
  intros Hd. unfold dict_len, py_len. f_equal.
  rewrite <-length_map_to_list. apply Permutation_length. symmetry.
  by apply map_to_list_to_map.
Qed.

End dict_abstraction.

#[export] Hint Resolve dict_wf_empty dict_wf_insert dict_wf_update
  dict_wf_literal dict_wf_comp : py.
#[export] Hint Rewrite @dict_lookup_insert @dict_lookup_empty : pyrw.

(** ** Merging a sequence of dictionaries *)

Section dict_merge.
Context `{EqDecision K} {V : Type}.
Implicit Types (d : dict K V) (ds : list (dict K V)).

(** Updating in turn with dictionaries whose keys are all distinct, from
    each other and from the keys already there, concatenates the items. *)
Lemma dict_update_foldl_disjoint d ds :
  NoDup (dict_items d ++ mjoin (dict_items <$> ds)).*1 →
  foldl dict_update d ds = Dict (dict_items d ++ mjoin (dict_items <$> ds)).
Proof.
  revert d. induction ds as [|o ds IH]; intros d Hnd; simpl.
  { rewrite app_nil_r. by destruct d. }
  rewrite fmap_cons in Hnd. simpl in Hnd. rewrite app_assoc, !fmap_app in Hnd.
  pose proof Hnd as [[Hd [Hdisj Ho]]%NoDup_app _]%NoDup_app.
  assert (dict_update d o = Dict (dict_items d ++ dict_items o)) as Hupd.
  { apply dict_update_disjoint; [done|]. intros k Hk Hk'. by apply (Hdisj k). }
  rewrite Hupd, IH; simpl; [by rewrite <-app_assoc | by rewrite !fmap_app].
Qed.

Lemma dict_keys_update_elem_of k d o :
  dict_wf o →
  k ∈ dict_keys (dict_update d o) ↔ k ∈ dict_keys d ∨ k ∈ dict_keys o.
Proof.
  intros Ho. rewrite dict_keys_update, elem_of_app, list_elem_of_filter by done.
  destruct (decide (k ∈ dict_keys d)); naive_solver.
Qed.

(** The keys after a sequence of updates are the keys there before and the
    keys of the dictionaries merged in. *)
Lemma dict_keys_foldl_update k d ds :
  Forall dict_wf ds →
  k ∈ dict_keys (foldl dict_update d ds) ↔
  k ∈ dict_keys d ∨ ∃ o, o ∈ ds ∧ k ∈ dict_keys o.
Proof.
  intros Hds. revert d. induction Hds as [|o ds Ho Hds IH]; intros d; simpl.
  { split; [by left | intros [?|(o & ?%elem_of_nil & _)]; done]. }
  rewrite IH, dict_keys_update_elem_of by done. split.
  - intros [[?|?]|(o' & ? & ?)]; [by left | right; exists o | right; exists o'];
      split; by (left || right || idtac).
  - intros [?|(o' & [->|?]%elem_of_cons & ?)]; [by do 2 left | left; by right |].
    right. by exists o'.
Qed.

End dict_merge.

(** ** Building a dictionary from the items of another *)

Section dict_build.
Context `{EqDecision K} {V W : Type}.
Implicit Types (g : K → V → W) (l : list (K * V)) (acc : dict K W).

Lemma items_build_wf g l acc : dict_wf acc → dict_wf (items_build g l acc).
Proof.
  revert acc. induction l as [|[k v] l IH]; intros acc Hwf; [done|].
  apply IH. by apply dict_wf_insert.
Qed.

(** Over distinct keys that are new to the accumulator the loop appends one
    item per item, in order. *)
Lemma items_build_fresh g l acc :
  NoDup l.*1 → (∀ k, k ∈ l.*1 → k ∉ dict_keys acc) →
  items_build g l acc =
    Dict (dict_items acc ++ ((λ kv, (kv.1, g kv.1 kv.2)) <$> l)).
Proof.
  revert acc. induction l as [|[k0 v0] l IH]; intros [acc].
  { intros _ _. simpl. by rewrite app_nil_r. }
  rewrite fmap_cons, NoDup_cons. intros [Hk0 Hnd] Hfresh. simpl in Hk0, Hfresh.
  change (items_build g ((k0, v0) :: l) (Dict acc))
    with (items_build g l (<[k0:=g k0 v0]> (Dict acc))).
  rewrite dict_insert_unfold, items_set_fresh by (apply Hfresh; left).
  rewrite IH; simpl; [by rewrite <-app_assoc | done |].
  intros k Hk. unfold dict_keys. simpl. rewrite fmap_app, not_elem_of_app. split.
  - apply Hfresh. by right.
  - intros ->%list_elem_of_singleton. done.
Qed.

Lemma items_build_empty g l :
  NoDup l.*1 → items_build g l ∅ = Dict ((λ kv, (kv.1, g kv.1 kv.2)) <$> l).
Proof.
  intros Hl. rewrite items_build_fresh; [done | done |].
  intros k _. apply not_elem_of_nil.
Qed.

(** The built dictionary has the keys of the source, in order, and under
    each key the image of the source's value. *)
Lemma items_build_keys g l : NoDup l.*1 → dict_keys (items_build g l ∅) = l.*1.
Proof.
  intros Hl. rewrite items_build_empty by done. unfold dict_keys. simpl.
  rewrite <-list_fmap_compose. by apply list_fmap_ext.
Qed.

Lemma items_build_lookup g l k :
  NoDup l.*1 → items_build g l ∅ !! k = g k <$> items_get k l.
Proof.
  intros Hl. rewrite items_build_empty by done. rewrite dict_lookup_unfold. simpl.
  clear Hl. induction l as [|[k0 v0] l IH]; simpl; [done|].
  case_decide; by subst.
Qed.

End dict_build.

(** ** The operations the program calls, in full *)

Section dict_specs.
Context `{EqDecision K} {V : Type}.
Implicit Types (k : K) (v : V) (d o : dict K V) (l : list (K * V)).

(** [d[k] = v]: the key is bound to [v], the other keys are untouched, an
    existing key keeps its place and a new one goes last. *)
Lemma dict_setitem_spec k v d :
  dict_wf d →
  dict_wf (dict_setitem k v d) ∧
  (∀ k', dict_setitem k v d !! k' = if decide (k = k') then Some v else d !! k') ∧
  dict_keys (dict_setitem k v d) =
    if dict_contains k d then dict_keys d else dict_keys d ++ [k].
Proof.
  intros Hd. split_and!.
  - by apply dict_wf_insert.
  - intros k'. apply dict_lookup_insert.
  - apply dict_keys_insert.
Qed.

(** [d.update(o)]: the keys of [o] get the values of [o], the other keys
    keep theirs; the keys of [d] keep their places and the new keys follow
    in the order of [o]. *)
Lemma dict_update_spec d o :
  dict_wf d → dict_wf o →
  dict_wf (dict_update d o) ∧
  (∀ k, dict_update d o !! k = o !! k ∪ d !! k) ∧
  dict_keys (dict_update d o) =
    dict_keys d ++ filter (λ k, k ∉ dict_keys d) (dict_keys o).
Proof.
  intros Hd Ho. split_and!.
  - by apply dict_wf_update.
  - intros k. by apply dict_lookup_update.
  - by apply dict_keys_update.
Qed.

(** A dictionary literal with distinct keys holds its items in the order
    written; with a repeated key it is still a dictionary. *)
Lemma dict_literal_spec l :
  dict_wf (dict_literal l) ∧ (NoDup l.*1 → dict_literal l = Dict l).
Proof. split; [apply dict_wf_literal | apply dict_literal_NoDup]. Qed.

(** A comprehension keeps the items that satisfy its condition, in their
    order. *)
Lemma dict_comp_spec (f : K → V → bool) d :
  dict_wf d →
  dict_wf (dict_comp f d) ∧
  dict_items (dict_comp f d) = filter (λ kv, f kv.1 kv.2) (dict_items d) ∧
  ∀ k v, dict_comp f d !! k = Some v ↔ d !! k = Some v ∧ f k v = true.
Proof.
  intros Hd. split_and!.
  - apply dict_wf_comp.
  - by rewrite dict_comp_filter.
  - intros k v. by apply dict_lookup_comp_Some.
Qed.

End dict_specs.

Lemma dict_setitem_spec_witness :
  let d := Dict [(1, 10); (2, 20)] in
  dict_wf (dict_setitem 2 21 d) ∧
  (∀ k', dict_setitem 2 21 d !! k' = if decide (2 = k') then Some 21 else d !! k') ∧
  dict_keys (dict_setitem 2 21 d) =
    if dict_contains 2 d then dict_keys d else dict_keys d ++ [2].
Proof. apply dict_setitem_spec. by apply (bool_decide_unpack _). Defined.

Lemma dict_update_spec_witness :
  let d := Dict [(1, 10); (2, 20)] in
  let o := Dict [(3, 30); (2, 21)] in
  dict_wf (dict_update d o) ∧
  (∀ k, dict_update d o !! k = o !! k ∪ d !! k) ∧
  dict_keys (dict_update d o) =
    dict_keys d ++ filter (λ k, k ∉ dict_keys d) (dict_keys o).
Proof. apply dict_update_spec; by apply (bool_decide_unpack _). Defined.

Lemma dict_comp_spec_witness :
  let d := Dict [(1, 10); (2, 20); (3, 30)] in
  let f := λ k v : Z, 15 <? v in
  dict_wf (dict_comp f d) ∧
  dict_items (dict_comp f d) = filter (λ kv, f kv.1 kv.2) (dict_items d) ∧
  ∀ k v, dict_comp f d !! k = Some v ↔ d !! k = Some v ∧ f k v = true.
Proof. apply dict_comp_spec. by apply (bool_decide_unpack _). Defined.
