(* ===== verification/Schema.v ===== *)
(** * The data model

    The enumerations [QuestionType] and [ResponseScale], the dataclass
    [QuestionMapping] and the attributes of a [UnifiedSchema] instance
    ([src/unified_data_schema.py], lines 12 to 54).  A Python [Enum] member
    is a constructor and its [.value] a function; two members with the same
    value would be one member under two names, so that the values are
    pairwise distinct is part of what the declarations mean. *)

From S2P Require Import Prelude PyDict.
From stdpp Require Import finite.

Set Warnings "-clear-no-such-hyp".
#[local] Open Scope string_scope.
#[local] Open Scope Z_scope.

(** ** [class QuestionType(Enum)] *)

Inductive QuestionType : Set :=
| LIKERT_5
| LIKERT_4
| LIKERT_3
| MULTIPLE_CHOICE
| MULTIPLE_SELECT
| OPEN_TEXT
| DEMOGRAPHIC
| BINARY.

Definition QuestionType_value (t : QuestionType) : string :=
  match t with
  | LIKERT_5 => "likert_5"
  | LIKERT_4 => "likert_4"
  | LIKERT_3 => "likert_3"
  | MULTIPLE_CHOICE => "multiple_choice"
  | MULTIPLE_SELECT => "multiple_select"
  | OPEN_TEXT => "open_text"
  | DEMOGRAPHIC => "demographic"
  | BINARY => "binary"
  end.

(** The members in definition order, which is the order [list(QuestionType)]
    iterates them in. *)
Definition QuestionType_members : list QuestionType :=
  [LIKERT_5; LIKERT_4; LIKERT_3; MULTIPLE_CHOICE; MULTIPLE_SELECT; OPEN_TEXT;
   DEMOGRAPHIC; BINARY].

(** The number of points the comments give a Likert type. *)
Definition likert_points (t : QuestionType) : option Z :=
  match t with
  | LIKERT_5 => Some 5
  | LIKERT_4 => Some 4
  | LIKERT_3 => Some 3
  | _ => None
  end.

#[export] Instance QuestionType_eq_dec : EqDecision QuestionType.
Proof. solve_decision. Defined.

(** ** [class ResponseScale(Enum)] *)

Inductive ResponseScale : Set :=
| AGREEMENT_5
| AGREEMENT_5_ALT
| FREQUENCY_4
| FREQUENCY_4_ALT
| YES_NO_UNSURE
| YES_NO_DONT_KNOW
| CREDIT_3
| FAMILIARITY_3.

Definition ResponseScale_value (s : ResponseScale) : list string :=
  match s with
  | AGREEMENT_5 =>
      ["Strongly disagree"; "Somewhat disagree"; "Neutral"; "Somewhat agree";
       "Strongly agree"]
  | AGREEMENT_5_ALT =>
      ["Strongly disagree"; "Somewhat disagree"; "Neutral / No opinion";
       "Somewhat agree"; "Strongly agree"]
  | FREQUENCY_4 => ["Never"; "Rarely"; "Sometimes"; "Frequently"]
  | FREQUENCY_4_ALT => ["Never"; "Rarely"; "Often"; "Always"]
  | YES_NO_UNSURE => ["Yes"; "No"; "Unsure"]
  | YES_NO_DONT_KNOW => ["Yes"; "No"; "Don't know"]
  | CREDIT_3 => ["No, too little credit"; "Yes"; "No, too much credit"]
  | FAMILIARITY_3 =>
      ["I am familiar with the data principles";
       "I have previously heard of the data principles but I am not familiar with them";
       "I have never heard of the data principles before now"]
  end.

Definition ResponseScale_members : list ResponseScale :=
  [AGREEMENT_5; AGREEMENT_5_ALT; FREQUENCY_4; FREQUENCY_4_ALT; YES_NO_UNSURE;
   YES_NO_DONT_KNOW; CREDIT_3; FAMILIARITY_3].

#[export] Instance ResponseScale_eq_dec : EqDecision ResponseScale.
Proof. solve_decision. Defined.

(** ** [@dataclass class QuestionMapping] *)

Record QuestionMapping : Type := mkQuestionMapping {
  question_id : string;
  question_text : string;
  question_type : QuestionType;
  response_scale : list string;
  years_available : list Z;
  column_mappings : dict Z string;
  notes : option string;
}.

#[export] Instance QuestionMapping_eq_dec : EqDecision QuestionMapping.
Proof. solve_decision. Defined.

(** ** The attributes of a [UnifiedSchema] instance *)

Record UnifiedSchema : Type := mkUnifiedSchema {
  core_questions : dict string QuestionMapping;
  demographic_questions : dict string QuestionMapping;
  supplementary_questions : dict string QuestionMapping;
  historical_questions : dict string QuestionMapping;
}.

#[export] Instance UnifiedSchema_eq_dec : EqDecision UnifiedSchema.
Proof. solve_decision. Defined.

(** The four category dictionaries in the order they are merged. *)
Definition categories (self : UnifiedSchema) : list (dict string QuestionMapping) :=
  [core_questions self; demographic_questions self;
   supplementary_questions self; historical_questions self].

(** Every attribute is a dictionary Python can build. *)
Definition schema_wf (self : UnifiedSchema) : Prop :=
  Forall dict_wf (categories self).

#[export] Instance schema_wf_dec self : Decision (schema_wf self).
Proof. unfold schema_wf. apply _. Defined.

(** ** The enumerations are finite and their values distinct *)

#[export] Program Instance QuestionType_finite : Finite QuestionType :=
  {| enum := QuestionType_members |}.
Next Obligation. by compute_done. Qed.
Next Obligation. by intros []; compute_done. Qed.

#[export] Program Instance ResponseScale_finite : Finite ResponseScale :=
  {| enum := ResponseScale_members |}.
Next Obligation. by compute_done. Qed.
Next Obligation. by intros []; compute_done. Qed.

(** No member of [QuestionType] is an alias of another. *)
Lemma QuestionType_value_NoDup : NoDup (QuestionType_value <$> QuestionType_members).
Proof. by compute_done. Qed.

#[export] Instance QuestionType_value_inj : Inj (=) (=) QuestionType_value.
Proof. intros t1 t2. destruct t1, t2; simpl; congruence. Qed.

(** No member of [ResponseScale] is an alias of another. *)
Lemma ResponseScale_value_NoDup :
  NoDup (ResponseScale_value <$> ResponseScale_members).
Proof. by compute_done. Qed.

#[export] Instance ResponseScale_value_inj : Inj (=) (=) ResponseScale_value.
Proof. intros s1 s2. destruct s1, s2; simpl; congruence. Qed.

(** Every named scale lists its options without repetition, so the position
    of an option in its scale is well defined. *)
Lemma ResponseScale_value_options_NoDup s : NoDup (ResponseScale_value s).
Proof. destruct s; by compute_done. Qed.

(** The scales named with a number have that many options. *)
Lemma ResponseScale_value_length s :
  py_len (ResponseScale_value s) =
    match s with
    | AGREEMENT_5 | AGREEMENT_5_ALT => 5
    | FREQUENCY_4 | FREQUENCY_4_ALT => 4
    | YES_NO_UNSURE | YES_NO_DONT_KNOW | CREDIT_3 | FAMILIARITY_3 => 3
    end.
Proof. by destruct s. Qed.

(** C39. The declarations mean what they say: no two members of an enumeration
    share a value (in Python a member whose value repeats an earlier one is
    an alias of it, not a member of its own), no scale lists an option
    twice, and a scale named with a number has that many options. *)
Theorem enum_members_distinct :
  NoDup (QuestionType_value <$> QuestionType_members) ∧
  NoDup (ResponseScale_value <$> ResponseScale_members) ∧
  ∀ s, NoDup (ResponseScale_value s) ∧
       py_len (ResponseScale_value s) =
         match s with
         | AGREEMENT_5 | AGREEMENT_5_ALT => 5
         | FREQUENCY_4 | FREQUENCY_4_ALT => 4
         | YES_NO_UNSURE | YES_NO_DONT_KNOW | CREDIT_3 | FAMILIARITY_3 => 3
         end.
Proof.
  split_and!; [apply QuestionType_value_NoDup | apply ResponseScale_value_NoDup |].
  intros s. split; [apply ResponseScale_value_options_NoDup |].
  apply ResponseScale_value_length.
Qed.
