(* ===== verification/CatalogueData.v ===== *)
(** * The literal catalogue

    The eighteen question definitions of [src/unified_data_schema.py]
    (lines 56 to 296), each a [QuestionMapping] named after its key, the
    four builders [_define_*_questions] that return them as dictionary
    literals, and the constructor [__init__] that stores the four
    dictionaries in the instance.  Every string, year and column name is the
    source's. *)

From S2P Require Import Prelude PyDict Schema.

#[local] Open Scope string_scope.
#[local] Open Scope Z_scope.

(** ** Core questions *)

Definition open_access_attitude : QuestionMapping := {|
  question_id := "open_access_attitude";
  question_text :=
    "Making research articles open access should be common scholarly practice";
  question_type := LIKERT_5;
  response_scale :=
    ResponseScale_value AGREEMENT_5;
  years_available := [2021; 2022; 2023; 2024];
  column_mappings := dict_literal [(2021, "Q2.7_1"); (2022, "Q2.11_1"); (2023, "Q2.10.a"); (2024, "Q12_1")];
  notes := Some "Highest consistency across years - core trend indicator";
|}.

Definition open_data_attitude : QuestionMapping := {|
  question_id := "open_data_attitude";
  question_text :=
    "Making research data openly available should be common scholarly practice";
  question_type := LIKERT_5;
  response_scale :=
    ResponseScale_value AGREEMENT_5;
  years_available := [2021; 2022; 2023; 2024];
  column_mappings := dict_literal [(2021, "Q2.7_2"); (2022, "Q2.11_2"); (2023, "Q2.10.b"); (2024, "Q12_2")];
  notes := Some "Core data sharing attitude - primary outcome measure";
|}.

Definition open_peer_review_attitude : QuestionMapping := {|
  question_id := "open_peer_review_attitude";
  question_text :=
    "Making peer review open should be common scholarly practice";
  question_type := LIKERT_5;
  response_scale :=
    ResponseScale_value AGREEMENT_5;
  years_available := [2022; 2023; 2024];
  column_mappings := dict_literal [(2022, "Q2.11_3"); (2023, "Q2.10.c"); (2024, "Q12_3")];
  notes := Some "Introduced in 2022 - good trend indicator";
|}.

Definition preprinting_attitude : QuestionMapping := {|
  question_id := "preprinting_attitude";
  question_text :=
    "Preprinting should be common scholarly practice";
  question_type := LIKERT_5;
  response_scale :=
    ResponseScale_value AGREEMENT_5;
  years_available := [2022; 2023; 2024];
  column_mappings := dict_literal [(2022, "Q2.11_4"); (2023, "Q2.10.d"); (2024, "Q12_4")];
  notes := Some "Introduced in 2022 - tracks preprint adoption attitudes";
|}.

Definition data_sharing_frequency : QuestionMapping := {|
  question_id := "data_sharing_frequency";
  question_text :=
    "How often have you made your research data openly available?";
  question_type := LIKERT_4;
  response_scale :=
    ResponseScale_value FREQUENCY_4;
  years_available := [2017];
  column_mappings := dict_literal [(2017, "Q2.2")];
  notes := Some "Core behavioral measure - need to map similar questions in other years";
|}.

Definition credit_for_sharing : QuestionMapping := {|
  question_id := "credit_for_sharing";
  question_text :=
    "Do you think researchers currently get sufficient credit for sharing data?";
  question_type := MULTIPLE_CHOICE;
  response_scale :=
    ResponseScale_value CREDIT_3;
  years_available := [2019; 2022];
  column_mappings := dict_literal [(2019, "Q2.4"); (2022, "Q3.2")];
  notes := Some "Important motivational factor";
|}.

Definition fair_principles_awareness : QuestionMapping := {|
  question_id := "fair_principles_awareness";
  question_text :=
    "How familiar are you with FAIR data principles (Findable, Accessible, Interoperable, Reusable)?";
  question_type := MULTIPLE_CHOICE;
  response_scale :=
    ResponseScale_value FAMILIARITY_3;
  years_available := [2022; 2023];
  column_mappings := dict_literal [(2022, "Q3.1_1"); (2023, "Q2.11.a")];
  notes := Some "Key knowledge indicator for data management";
|}.

(** [_define_core_questions]: Define core questions available across multiple years. *)
Definition _define_core_questions : dict string QuestionMapping :=
  dict_literal
    [("open_access_attitude", open_access_attitude);
     ("open_data_attitude", open_data_attitude);
     ("open_peer_review_attitude", open_peer_review_attitude);
     ("preprinting_attitude", preprinting_attitude);
     ("data_sharing_frequency", data_sharing_frequency);
     ("credit_for_sharing", credit_for_sharing);
     ("fair_principles_awareness", fair_principles_awareness)].

(** ** Demographic questions *)

Definition job_title : QuestionMapping := {|
  question_id := "job_title";
  question_text :=
    "Which of the following job titles best applies to you?";
  question_type := MULTIPLE_CHOICE;
  response_scale :=
    ["Professor"; "Associate Professor"; "Research Scientist";
       "PhD Student"; "Postdoc"; "Other"];
  years_available := [2017; 2019; 2022; 2023; 2024];
  column_mappings := dict_literal [(2017, "Q10.5"); (2019, "Q6.5"); (2022, "Q2.6"); (2023, "Q2.6"); (2024, "Q7")];
  notes := Some "Response categories vary by year but can be harmonized";
|}.

Definition research_area : QuestionMapping := {|
  question_id := "research_area";
  question_text :=
    "Which of the following best describes your primary area of interest?";
  question_type := MULTIPLE_CHOICE;
  response_scale :=
    ["Medicine"; "Engineering"; "Physics"; "Biology"; "Other"];
  years_available := [2021; 2022; 2023; 2024];
  column_mappings := dict_literal [(2021, "Q2.4"); (2022, "Q2.7"); (2023, "Q2.7"); (2024, "Q8")];
  notes := Some "Consistent categories with some variation";
|}.

Definition publication_history : QuestionMapping := {|
  question_id := "publication_history";
  question_text :=
    "When was the last occasion that you published or submitted a manuscript to a journal?";
  question_type := MULTIPLE_CHOICE;
  response_scale :=
    ["Within the last year"; "1-2 years ago"; "3-5 years ago";
       "More than 5 years ago"; "Never"];
  years_available := [2021; 2022; 2023; 2024];
  column_mappings := dict_literal [(2021, "Q2.1"); (2022, "Q2.3"); (2023, "Q2.1"); (2024, "Q4")];
  notes := Some "Good indicator of research activity level";
|}.

Definition organization_type : QuestionMapping := {|
  question_id := "organization_type";
  question_text :=
    "Which type of organisation do you work in?";
  question_type := MULTIPLE_CHOICE;
  response_scale :=
    ["University"; "Research institution"; "Medical school";
       "Private company"; "Other"];
  years_available := [2022; 2023; 2024];
  column_mappings := dict_literal [(2022, "Q2.4"); (2023, "Q2.4"); (2024, "Q5")];
  notes := Some "Institutional context indicator";
|}.

(** [_define_demographic_questions]: Define demographic questions across years. *)
Definition _define_demographic_questions : dict string QuestionMapping :=
  dict_literal
    [("job_title", job_title);
     ("research_area", research_area);
     ("publication_history", publication_history);
     ("organization_type", organization_type)].

(** ** Supplementary questions *)

Definition funder_mandate_support : QuestionMapping := {|
  question_id := "funder_mandate_support";
  question_text :=
    "Should funders make the sharing of research data part of their requirements for awarding grants?";
  question_type := LIKERT_3;
  response_scale :=
    ResponseScale_value YES_NO_DONT_KNOW;
  years_available := [2019];
  column_mappings := dict_literal [(2019, "Q2.2")];
  notes := Some "Important policy question - 2019 focus";
|}.

Definition national_mandate_support : QuestionMapping := {|
  question_id := "national_mandate_support";
  question_text :=
    "How supportive would you be of a national mandate for making primary research data openly available?";
  question_type := LIKERT_5;
  response_scale :=
    ["Strongly oppose"; "Somewhat oppose"; "Neutral"; "Somewhat support";
       "Strongly support"];
  years_available := [2019];
  column_mappings := dict_literal [(2019, "Q2.3")];
  notes := Some "Policy attitude indicator";
|}.

Definition care_principles_awareness : QuestionMapping := {|
  question_id := "care_principles_awareness";
  question_text :=
    "How familiar are you with CARE principles for Indigenous Data Governance?";
  question_type := MULTIPLE_CHOICE;
  response_scale :=
    ResponseScale_value FAMILIARITY_3;
  years_available := [2022];
  column_mappings := dict_literal [(2022, "Q3.1_2")];
  notes := Some "Ethical data governance awareness";
|}.

(** [_define_supplementary_questions]: Define supplementary questions of interest. *)
Definition _define_supplementary_questions : dict string QuestionMapping :=
  dict_literal
    [("funder_mandate_support", funder_mandate_support);
     ("national_mandate_support", national_mandate_support);
     ("care_principles_awareness", care_principles_awareness)].

(** ** Historical questions *)

Definition data_sharing_motivations : QuestionMapping := {|
  question_id := "data_sharing_motivations";
  question_text :=
    "What circumstances would motivate you to share your data?";
  question_type := MULTIPLE_SELECT;
  response_scale :=
    ["Institution requirement"; "Funder requirement"; "Transparency";
       "Credit"; "Other"];
  years_available := [2017];
  column_mappings := dict_literal [(2017, "Q2.3_*")];
  notes := Some "Comprehensive motivation analysis - 2017 baseline";
|}.

Definition data_sharing_effort : QuestionMapping := {|
  question_id := "data_sharing_effort";
  question_text :=
    "How much effort is typically required to make your data re-usable by others?";
  question_type := LIKERT_4;
  response_scale :=
    ["No effort"; "Little effort"; "Some effort"; "A lot of effort"];
  years_available := [2017];
  column_mappings := dict_literal [(2017, "Q2.5")];
  notes := Some "Barrier assessment - effort required";
|}.

Definition data_ownership_before_pub : QuestionMapping := {|
  question_id := "data_ownership_before_pub";
  question_text :=
    "Who owns the data you produce during the course of your research before publication?";
  question_type := MULTIPLE_SELECT;
  response_scale :=
    ["You"; "Your institution"; "Your funder"; "Other"];
  years_available := [2017];
  column_mappings := dict_literal [(2017, "Q2.6_*")];
  notes := Some "Ownership understanding - pre-publication";
|}.

Definition data_ownership_after_pub : QuestionMapping := {|
  question_id := "data_ownership_after_pub";
  question_text :=
    "Who owns the data you produce during the course of your research after publication?";
  question_type := MULTIPLE_SELECT;
  response_scale :=
    ["You"; "Your institution"; "Your funder"; "Other"];
  years_available := [2017];
  column_mappings := dict_literal [(2017, "Q2.7_*")];
  notes := Some "Ownership understanding - post-publication";
|}.

(** [_define_historical_questions]: Define questions with rich historical data (mainly 2017). *)
Definition _define_historical_questions : dict string QuestionMapping :=
  dict_literal
    [("data_sharing_motivations", data_sharing_motivations);
     ("data_sharing_effort", data_sharing_effort);
     ("data_ownership_before_pub", data_ownership_before_pub);
     ("data_ownership_after_pub", data_ownership_after_pub)].

(** ** [UnifiedSchema.__init__] *)

Definition __init__ : UnifiedSchema := {|
  core_questions := _define_core_questions;
  demographic_questions := _define_demographic_questions;
  supplementary_questions := _define_supplementary_questions;
  historical_questions := _define_historical_questions;
|}.
