(* ===== verification/Queries.v ===== *)
(** * The queries of [UnifiedSchema]

    [get_all_questions], [get_questions_by_year],
    [get_longitudinal_questions] and [get_core_trend_questions]
    ([src/unified_data_schema.py], lines 298 to 322) over an arbitrary
    schema value, with their specifications on every input, and the class
    [CatalogueLaws]: what a well-formed catalogue promises the code that
    consumes it.  The theorems that need identifiers to be unique take
    that as their hypothesis; the ones that need a catalogue to be well
    formed are proved against the class; [CatalogueFacts] shows that the
    catalogue the program builds is an instance. *)

From S2P Require Import Prelude PyDict Schema CatalogueData.
From stdpp Require Import gmap.

Set Warnings "-clear-no-such-hyp".
#[local] Open Scope Z_scope.

Implicit Types (self : UnifiedSchema) (year : Z) (qid : string).
Implicit Types (q : QuestionMapping).

(** ** The methods *)

Definition get_all_questions self : dict string QuestionMapping :=
  let all_questions := ∅ in
  let all_questions := dict_update all_questions (core_questions self) in
  let all_questions := dict_update all_questions (demographic_questions self) in
  let all_questions := dict_update all_questions (supplementary_questions self) in
  let all_questions := dict_update all_questions (historical_questions self) in
  all_questions.

(** The condition [year in q.years_available]. *)
Definition available_in year : string → QuestionMapping → bool :=
  λ _ q, py_in year (years_available q).

(** The condition [len(q.years_available) >= min_years] of line 315, and
    of line 321 where the threshold is the literal 3. *)
Definition spans_at_least (min_years : Z) : string → QuestionMapping → bool :=
  λ _ q, py_len (years_available q) >=? min_years.

Definition get_questions_by_year self year : dict string QuestionMapping :=
  dict_comp (available_in year) (get_all_questions self).

(** [min_years] has the default 2: [None] is the call without the argument. *)
Definition get_longitudinal_questions self (min_years : option Z) :
    dict string QuestionMapping :=
  let min_years := default 2 min_years in
  dict_comp (spans_at_least min_years) (get_all_questions self).

Definition get_core_trend_questions self : dict string QuestionMapping :=
  dict_comp (spans_at_least 3) (core_questions self).

(** ** What a well-formed catalogue promises *)

(** All the items of the four categories, in merge order. *)
Definition catalogue_items self : list (string * QuestionMapping) :=
  mjoin (dict_items <$> categories self).

(** One entry is consistent: stored under its own identifier, asked in at
    least one year, no year twice, and a source column for exactly the years
    it is available in. *)
Record entry_ok qid q : Prop := {
  entry_key : question_id q = qid;
  entry_years_nonempty : years_available q ≠ [];
  entry_years_NoDup : NoDup (years_available q);
  entry_columns_wf : dict_wf (column_mappings q);
  entry_columns_years : dict_keys (column_mappings q) ⊆ years_available q;
  entry_years_columns : years_available q ⊆ dict_keys (column_mappings q);
}.

Class CatalogueLaws self : Prop := {
  laws_ids_unique : NoDup (catalogue_items self).*1;
  laws_entries : Forall (λ kv, entry_ok kv.1 kv.2) (catalogue_items self);
}.

Lemma entry_ok_iff qid q :
  entry_ok qid q ↔
  question_id q = qid ∧ years_available q ≠ [] ∧ NoDup (years_available q) ∧
  dict_wf (column_mappings q) ∧
  dict_keys (column_mappings q) ⊆ years_available q ∧
  years_available q ⊆ dict_keys (column_mappings q).
Proof. split; [by intros [] | intros (?&?&?&?&?&?); by split]. Qed.

#[export] Instance entry_ok_dec qid q : Decision (entry_ok qid q).
Proof.
  refine (cast_if (decide
    (question_id q = qid ∧ years_available q ≠ [] ∧
     NoDup (years_available q) ∧ dict_wf (column_mappings q) ∧
     dict_keys (column_mappings q) ⊆ years_available q ∧
     years_available q ⊆ dict_keys (column_mappings q))));
    by rewrite entry_ok_iff.
Defined.

Lemma CatalogueLaws_iff self :
  CatalogueLaws self ↔
  NoDup (catalogue_items self).*1 ∧
  Forall (λ kv, entry_ok kv.1 kv.2) (catalogue_items self).
Proof. split; [by intros [] | intros [? ?]; by split]. Qed.

#[export] Instance CatalogueLaws_dec self : Decision (CatalogueLaws self).
Proof.
  destruct (decide
    (NoDup (catalogue_items self).*1 ∧
     Forall (λ kv, entry_ok kv.1 kv.2) (catalogue_items self)));
    [left; by apply CatalogueLaws_iff | right; by intros ?%CatalogueLaws_iff].
Defined.

(** ** [get_all_questions] *)

Lemma schema_wf_unfold self :
  schema_wf self ↔
  dict_wf (core_questions self) ∧ dict_wf (demographic_questions self) ∧
  dict_wf (supplementary_questions self) ∧ dict_wf (historical_questions self).
Proof. unfold schema_wf, categories. rewrite !Forall_cons, Forall_nil. tauto. Qed.

(** C4. On a clash of identifiers the category merged later wins: an entry of
    the merged dictionary is the entry of the last category that has the
    identifier. *)
Theorem get_all_questions_last_wins self qid q :
  schema_wf self →
  get_all_questions self !! qid = Some q ↔
  historical_questions self !! qid = Some q ∨
  historical_questions self !! qid = None ∧
  (supplementary_questions self !! qid = Some q ∨
   supplementary_questions self !! qid = None ∧
   (demographic_questions self !! qid = Some q ∨
    demographic_questions self !! qid = None ∧
    core_questions self !! qid = Some q)).
Proof.
  intros (Hc & Hd & Hs & Hh)%schema_wf_unfold. unfold get_all_questions.
  rewrite !dict_lookup_update, dict_lookup_empty by done.
  destruct (historical_questions self !! qid),
    (supplementary_questions self !! qid),
    (demographic_questions self !! qid),
    (core_questions self !! qid); simpl; naive_solver.
Qed.

(** ** Shared lemmas *)

Lemma get_all_questions_foldl self :
  get_all_questions self = foldl dict_update ∅ (categories self).
Proof. done. Qed.

(** The merged dictionary has no key twice, whatever the categories hold. *)
Lemma all_wf self : dict_wf (get_all_questions self).
Proof. unfold get_all_questions. auto 10 with py. Qed.

(** Membership in a comprehension over the merged dictionary. *)
Lemma comp_all_lookup f self qid q :
  dict_comp f (get_all_questions self) !! qid = Some q ↔
  get_all_questions self !! qid = Some q ∧ f qid q = true.
Proof. apply dict_lookup_comp_Some, all_wf. Qed.

Lemma comp_all_items f self :
  dict_comp f (get_all_questions self) =
    Dict (filter (λ kv, f kv.1 kv.2) (dict_items (get_all_questions self))).
Proof. apply dict_comp_filter, all_wf. Qed.

Lemma comp_all_none f self :
  (∀ qid q, get_all_questions self !! qid = Some q → f qid q = false) →
  dict_comp f (get_all_questions self) = ∅.
Proof.
  intros Hf. apply dict_comp_none; [apply all_wf|].
  intros qid q Hq. apply Hf. by apply dict_lookup_Some; [apply all_wf|].
Qed.

Lemma comp_all_all f self :
  (∀ qid q, get_all_questions self !! qid = Some q → f qid q = true) →
  dict_comp f (get_all_questions self) = get_all_questions self.
Proof.
  intros Hf. apply dict_comp_all; [apply all_wf|].
  intros qid q Hq. apply Hf. by apply dict_lookup_Some; [apply all_wf|].
Qed.

Lemma all_items_lookup self qid q :
  (qid, q) ∈ dict_items (get_all_questions self) ↔
  get_all_questions self !! qid = Some q.
Proof. symmetry. apply dict_lookup_Some, all_wf. Qed.

Lemma spans_at_least_true m qid q :
  spans_at_least m qid q = true ↔ m ≤ py_len (years_available q).
Proof. unfold spans_at_least. by rewrite Z.geb_le. Qed.

Lemma spans_at_least_false m qid q :
  spans_at_least m qid q = false ↔ py_len (years_available q) < m.
Proof.
  unfold spans_at_least. rewrite <-not_true_iff_false, Z.geb_le. lia.
Qed.

Lemma available_in_true year qid q :
  available_in year qid q = true ↔ year ∈ years_available q.
Proof. apply py_in_true. Qed.

(** Nothing is invented and nothing is lost: the identifiers of the merged
    dictionary are exactly the identifiers of the four categories. *)
Lemma get_all_questions_keys self qid :
  schema_wf self →
  qid ∈ dict_keys (get_all_questions self) ↔
  ∃ d, d ∈ categories self ∧ qid ∈ dict_keys d.
Proof.
  intros Hwf. rewrite get_all_questions_foldl, dict_keys_foldl_update by done.
  split; [intros [?%elem_of_nil|?]; done | by right].
Qed.

(** ** [get_questions_by_year] *)

(** C1. The result holds exactly the entries of the merged dictionary whose
    years contain [year]. *)
Theorem get_questions_by_year_spec self year qid q :
  get_questions_by_year self year !! qid = Some q ↔
  get_all_questions self !! qid = Some q ∧ year ∈ years_available q.
Proof.
  unfold get_questions_by_year. by rewrite comp_all_lookup, available_in_true.
Qed.

(** C28. The comprehension is the filter of the merged items, in their order. *)
Theorem get_questions_by_year_filter self year :
  dict_items (get_questions_by_year self year) =
    filter (λ kv, year ∈ years_available kv.2)
      (dict_items (get_all_questions self)).
Proof.
  unfold get_questions_by_year. rewrite comp_all_items. simpl.
  apply list_filter_iff. intros [qid q]. simpl.
  by rewrite Is_true_true, available_in_true.
Qed.

(** A year in which no question was asked gives the empty dictionary. *)
Lemma get_questions_by_year_none self year :
  (∀ qid q, get_all_questions self !! qid = Some q → year ∉ years_available q) →
  get_questions_by_year self year = ∅.
Proof.
  intros Hnone. apply comp_all_none.
  intros qid q Hq. apply py_in_false. eauto.
Qed.

(** ** [get_longitudinal_questions] *)

(** C2. The result holds exactly the entries of the merged dictionary with at
    least [min_years] years, 2 when the argument is omitted. *)
Theorem get_longitudinal_questions_spec self min_years qid q :
  get_longitudinal_questions self min_years !! qid = Some q ↔
  get_all_questions self !! qid = Some q ∧
  default 2 min_years ≤ py_len (years_available q).
Proof.
  unfold get_longitudinal_questions.
  by rewrite comp_all_lookup, spans_at_least_true.
Qed.

(** C29. A threshold of zero or less selects every question. *)
Theorem get_longitudinal_questions_nonpositive self m :
  m ≤ 0 → get_longitudinal_questions self (Some m) = get_all_questions self.
Proof.
  intros Hm. apply comp_all_all. intros qid q _. apply spans_at_least_true.
  pose proof (py_len_nonneg (years_available q)). simpl. lia.
Qed.

(** C30. A threshold above every span selects nothing. *)
Theorem get_longitudinal_questions_above self m :
  (∀ qid q, get_all_questions self !! qid = Some q →
            py_len (years_available q) < m) →
  get_longitudinal_questions self (Some m) = ∅.
Proof.
  intros Hm. apply comp_all_none. intros qid q Hq.
  apply spans_at_least_false. eauto.
Qed.

(** C31. Raising the threshold can only remove questions. *)
Theorem get_longitudinal_questions_antitone self m1 m2 qid q :
  m1 ≤ m2 →
  get_longitudinal_questions self (Some m2) !! qid = Some q →
  get_longitudinal_questions self (Some m1) !! qid = Some q.
Proof.
  intros Hm. unfold get_longitudinal_questions. simpl.
  rewrite !comp_all_lookup, !spans_at_least_true. intros [? ?]. split; [done | lia].
Qed.

(** C34. The items of the result are the items of the merged dictionary that
    span the threshold, in the order of the merged dictionary. *)
Theorem get_longitudinal_questions_filter self min_years :
  dict_items (get_longitudinal_questions self min_years) =
    filter (λ kv, default 2 min_years ≤ py_len (years_available kv.2))
      (dict_items (get_all_questions self)).
Proof.
  unfold get_longitudinal_questions. rewrite comp_all_items. simpl.
  apply list_filter_iff. intros [qid q]. simpl.
  by rewrite Is_true_true, spans_at_least_true.
Qed.

(** ** [get_core_trend_questions] *)

(** C3. The result holds exactly the core entries with at least three years;
    the other categories do not contribute. *)
Theorem get_core_trend_questions_spec self qid q :
  dict_wf (core_questions self) →
  get_core_trend_questions self !! qid = Some q ↔
  core_questions self !! qid = Some q ∧ 3 ≤ py_len (years_available q).
Proof.
  intros Hc. unfold get_core_trend_questions.
  rewrite dict_lookup_comp_Some by done. by rewrite spans_at_least_true.
Qed.

(** C35. The items of the result are the core items with at least three years,
    in the order of the core dictionary. *)
Theorem get_core_trend_questions_filter self :
  dict_wf (core_questions self) →
  dict_items (get_core_trend_questions self) =
    filter (λ kv, 3 ≤ py_len (years_available kv.2))
      (dict_items (core_questions self)).
Proof.
  intros Hc. unfold get_core_trend_questions.
  rewrite dict_comp_filter by done. simpl.
  apply list_filter_iff. intros [qid q]. simpl.
  by rewrite Is_true_true, spans_at_least_true.
Qed.

(** The result iterates in the order of the core dictionary. *)
Lemma get_core_trend_questions_order self :
  dict_wf (core_questions self) →
  dict_keys (get_core_trend_questions self)
    `sublist_of` dict_keys (core_questions self).
Proof. apply dict_keys_comp_sublist. Qed.

(** ** Consequences of unique identifiers *)

Section unique.
Context (self : UnifiedSchema) (Hunique : NoDup (catalogue_items self).*1).

(** Identifiers unique over the categories are unique in each. *)
Lemma unique_schema_wf : schema_wf self.
Proof.
  revert Hunique. unfold schema_wf, catalogue_items.
  induction (categories self) as [|d ds IH]; [done|].
  rewrite fmap_cons. simpl. rewrite fmap_app.
  intros (? & _ & ?)%NoDup_app. constructor; auto.
Qed.

Lemma all_concat : get_all_questions self = Dict (catalogue_items self).
Proof.
  rewrite get_all_questions_foldl. by rewrite dict_update_foldl_disjoint.
Qed.

Lemma all_lookup_elem_of qid q :
  get_all_questions self !! qid = Some q ↔ (qid, q) ∈ catalogue_items self.
Proof. rewrite all_concat. by apply dict_lookup_Some. Qed.

(** A core question is found unchanged in the merged dictionary. *)
Lemma core_in_all qid q :
  core_questions self !! qid = Some q → get_all_questions self !! qid = Some q.
Proof.
  intros Hq%dict_lookup_Some_elem_of. apply all_lookup_elem_of.
  unfold catalogue_items, categories. simpl. apply elem_of_app. by left.
Qed.

(** C20. With identifiers unique over the four categories nothing is shadowed:
    the merged dictionary is the concatenation of the categories, and its
    length the sum of theirs. *)
Theorem get_all_questions_concat :
  dict_items (get_all_questions self) =
    dict_items (core_questions self) ++ dict_items (demographic_questions self) ++
    dict_items (supplementary_questions self) ++
    dict_items (historical_questions self) ∧
  dict_len (get_all_questions self) =
    dict_len (core_questions self) + dict_len (demographic_questions self) +
    dict_len (supplementary_questions self) + dict_len (historical_questions self).
Proof.
  rewrite all_concat. unfold dict_len, catalogue_items, categories. simpl.
  rewrite app_nil_r, !py_len_app. split; [done | lia].
Qed.

(** C21. With identifiers unique over the four categories, every core trend
    question is a longitudinal question at threshold 3. *)
Theorem core_trend_longitudinal qid q :
  get_core_trend_questions self !! qid = Some q →
  get_longitudinal_questions self (Some 3) !! qid = Some q.
Proof.
  pose proof unique_schema_wf as (Hc & _)%schema_wf_unfold.
  unfold get_core_trend_questions, get_longitudinal_questions. simpl.
  rewrite dict_lookup_comp_Some, comp_all_lookup by done.
  intros [Hq Hlen]. split; [by apply core_in_all | done].
Qed.

End unique.

(** ** Consequences of the catalogue laws *)

Section laws.
Context (self : UnifiedSchema) `{!CatalogueLaws self}.

Lemma laws_schema_wf : schema_wf self.
Proof. apply unique_schema_wf, laws_ids_unique. Qed.

Lemma laws_entry qid q : (qid, q) ∈ catalogue_items self → entry_ok qid q.
Proof.
  intros Hin. pose proof laws_entries as Hall.
  rewrite Forall_forall in Hall. apply (Hall (qid, q) Hin).
Qed.

Lemma all_entry_ok qid q :
  get_all_questions self !! qid = Some q → entry_ok qid q.
Proof.
  intros Hq%all_lookup_elem_of; [by apply laws_entry | apply laws_ids_unique].
Qed.

(** Every entry is stored under its own identifier. *)
Lemma get_all_questions_key_is_id qid q :
  get_all_questions self !! qid = Some q → question_id q = qid.
Proof. by intros [? _ _ _ _ _]%all_entry_ok. Qed.

(** C22. A question returned for a year has a source column for that year. *)
Theorem get_questions_by_year_column year qid q :
  get_questions_by_year self year !! qid = Some q →
  is_Some (column_mappings q !! year).
Proof.
  unfold get_questions_by_year. rewrite comp_all_lookup, available_in_true.
  intros [Hq%all_entry_ok Hyear].
  apply dict_lookup_is_Some. by apply (entry_years_columns _ _ Hq).
Qed.

(** C32. Every question was asked in some year, so a threshold of one selects
    the whole catalogue. *)
Theorem get_longitudinal_questions_one :
  get_longitudinal_questions self (Some 1) = get_all_questions self.
Proof.
  apply comp_all_all. intros qid q [_ Hne _ _ _ _]%all_entry_ok.
  apply spans_at_least_true. unfold py_len.
  destruct (years_available q); [done | simpl; lia].
Qed.

(** The number of years counted is the number of distinct years. *)
Lemma years_counted_distinct qid q :
  get_all_questions self !! qid = Some q →
  py_len (years_available q) =
    Z.of_nat (size (list_to_set (years_available q) : gset Z)).
Proof.
  intros Hq%all_entry_ok. unfold py_len.
  f_equal. symmetry. apply size_list_to_set, Hq.
Qed.

End laws.
