(* ===== verification/CatalogueFacts.v ===== *)
(** * The catalogue the program builds

    [__init__] satisfies [CatalogueLaws]; the tables of what each query
    returns on it, for every year and every threshold; the applications of
    the theorems of [Queries] to it. *)

From S2P Require Import Prelude PyDict Schema CatalogueData Queries.
From stdpp Require Import gmap.

Set Warnings "-clear-no-such-hyp".
#[local] Open Scope string_scope.
#[local] Open Scope Z_scope.

(** The years the survey ran in. *)
Definition survey_years : list Z := [2017; 2019; 2021; 2022; 2023; 2024].

(** The identifiers in the order [get_all_questions] iterates them. *)
Definition all_question_ids : list string :=
  ["open_access_attitude"; "open_data_attitude"; "open_peer_review_attitude";
   "preprinting_attitude"; "data_sharing_frequency"; "credit_for_sharing";
   "fair_principles_awareness"; "job_title"; "research_area";
   "publication_history"; "organization_type"; "funder_mandate_support";
   "national_mandate_support"; "care_principles_awareness";
   "data_sharing_motivations"; "data_sharing_effort";
   "data_ownership_before_pub"; "data_ownership_after_pub"].

(** What [get_questions_by_year] returns, by year. *)
Definition ids_by_year (year : Z) : list string :=
  if decide (year = 2017) then
    ["data_sharing_frequency"; "job_title"; "data_sharing_motivations";
     "data_sharing_effort"; "data_ownership_before_pub";
     "data_ownership_after_pub"]
  else if decide (year = 2019) then
    ["credit_for_sharing"; "job_title"; "funder_mandate_support";
     "national_mandate_support"]
  else if decide (year = 2021) then
    ["open_access_attitude"; "open_data_attitude"; "research_area";
     "publication_history"]
  else if decide (year = 2022) then
    ["open_access_attitude"; "open_data_attitude"; "open_peer_review_attitude";
     "preprinting_attitude"; "credit_for_sharing"; "fair_principles_awareness";
     "job_title"; "research_area"; "publication_history"; "organization_type";
     "care_principles_awareness"]
  else if decide (year = 2023) then
    ["open_access_attitude"; "open_data_attitude"; "open_peer_review_attitude";
     "preprinting_attitude"; "fair_principles_awareness"; "job_title";
     "research_area"; "publication_history"; "organization_type"]
  else if decide (year = 2024) then
    ["open_access_attitude"; "open_data_attitude"; "open_peer_review_attitude";
     "preprinting_attitude"; "job_title"; "research_area";
     "publication_history"; "organization_type"]
  else [].

(** What [get_longitudinal_questions] returns, by threshold. *)
Definition ids_by_span (m : Z) : list string :=
  if decide (m ≤ 1) then all_question_ids
  else if decide (m = 2) then
    ["open_access_attitude"; "open_data_attitude"; "open_peer_review_attitude";
     "preprinting_attitude"; "credit_for_sharing"; "fair_principles_awareness";
     "job_title"; "research_area"; "publication_history"; "organization_type"]
  else if decide (m = 3) then
    ["open_access_attitude"; "open_data_attitude"; "open_peer_review_attitude";
     "preprinting_attitude"; "job_title"; "research_area";
     "publication_history"; "organization_type"]
  else if decide (m = 4) then
    ["open_access_attitude"; "open_data_attitude"; "job_title";
     "research_area"; "publication_history"]
  else if decide (m = 5) then ["job_title"]
  else [].

(** A schema in which a demographic entry reuses a core identifier. *)
Definition shadowed_schema : UnifiedSchema := {|
  core_questions := dict_literal [("open_access_attitude", open_access_attitude)];
  demographic_questions :=
    dict_literal [("open_access_attitude", data_sharing_frequency)];
  supplementary_questions := ∅;
  historical_questions := ∅;
|}.

(** ** The laws hold *)

#[export] Instance init_laws : CatalogueLaws __init__.
Proof. apply (bool_decide_unpack _). by vm_compute. Qed.

Lemma init_schema_wf : schema_wf __init__.
Proof. apply laws_schema_wf, _. Qed.

Lemma init_all_items :
  dict_items (get_all_questions __init__) = catalogue_items __init__.
Proof. by rewrite all_concat by apply laws_ids_unique. Qed.

(** A property of every item holds of every entry of the merged dictionary. *)
Lemma init_Forall (P : string → QuestionMapping → Prop) :
  Forall (λ kv, P kv.1 kv.2) (catalogue_items __init__) →
  ∀ qid q, get_all_questions __init__ !! qid = Some q → P qid q.
Proof.
  intros Hall qid q Hq%dict_lookup_Some_elem_of.
  rewrite init_all_items in Hq. rewrite Forall_forall in Hall.
  apply (Hall (qid, q) Hq).
Qed.

(** Prove a decidable property of every entry by evaluating it on the
    eighteen items. *)
Ltac check_entries P :=
  apply (init_Forall P); cbv beta; apply (bool_decide_unpack _); by vm_compute.

Lemma init_years_subseteq qid q :
  get_all_questions __init__ !! qid = Some q →
  years_available q ⊆ survey_years.
Proof.
  revert qid q.
  check_entries (λ (_ : string) q, years_available q ⊆ survey_years).
Qed.

Lemma init_span_le_5 qid q :
  get_all_questions __init__ !! qid = Some q → py_len (years_available q) ≤ 5.
Proof.
  revert qid q.
  check_entries (λ (_ : string) q, py_len (years_available q) ≤ 5).
Qed.

Lemma init_open_access :
  get_all_questions __init__ !! "open_access_attitude" = Some open_access_attitude.
Proof. by vm_compute. Qed.

(** ** Consistency of the entries *)

(** C6. Every question lists a source column for exactly the years it is
    available in, in the same order. *)
Theorem init_columns_match_years qid q :
  get_all_questions __init__ !! qid = Some q →
  dict_keys (column_mappings q) = years_available q.
Proof.
  revert qid q.
  check_entries (λ (_ : string) q, dict_keys (column_mappings q) = years_available q).
Qed.

Lemma init_columns_match_years_witness :
  dict_keys (column_mappings open_access_attitude) =
  years_available open_access_attitude.
Proof. apply (init_columns_match_years _ _ init_open_access). Defined.

(** C27. A question typed as an n-point Likert question has n response options. *)
Theorem init_likert_points qid q n :
  get_all_questions __init__ !! qid = Some q →
  likert_points (question_type q) = Some n → py_len (response_scale q) = n.
Proof.
  intros Hq. revert n. revert qid q Hq.
  apply (init_Forall (λ _ q, ∀ n, likert_points (question_type q) = Some n →
                               py_len (response_scale q) = n)).
  unfold catalogue_items. simpl.
  repeat (apply Forall_cons; split; [by intros n [= <-]|]). apply Forall_nil_2.
Qed.

Lemma init_likert_points_witness : py_len (response_scale open_access_attitude) = 5.
Proof. by apply (init_likert_points _ _ 5 init_open_access). Defined.

(** C26. The survey years are exactly the years in which some question was
    asked. *)
Theorem init_survey_years year :
  year ∈ survey_years ↔ get_questions_by_year __init__ year ≠ ∅.
Proof.
  split.
  - unfold survey_years. intros Hin.
    repeat (apply elem_of_cons in Hin as [->|Hin]);
      [by vm_compute.. | by apply elem_of_nil in Hin].
  - intros Hne. destruct (decide (year ∈ survey_years)) as [|Hout]; [done|].
    destruct Hne. apply comp_all_none. intros qid q Hq%init_years_subseteq.
    apply py_in_false. intros Hin. by apply Hout, Hq.
Qed.

(** ** [get_questions_by_year], for every year *)

(** C8. For every year, the questions [get_questions_by_year] returns are the
    ones tabulated in [ids_by_year], in that order; for a year outside the
    survey years it returns the empty dictionary. *)
Theorem init_by_year year :
  dict_keys (get_questions_by_year __init__ year) = ids_by_year year.
Proof.
  destruct (decide (year ∈ survey_years)) as [Hin|Hout]; unfold survey_years in *.
  - repeat (apply elem_of_cons in Hin as [->|Hin]);
      [by vm_compute.. | by apply elem_of_nil in Hin].
  - unfold get_questions_by_year. rewrite comp_all_none.
    + unfold ids_by_year. repeat case_decide; subst; try done; set_solver.
    + intros qid q Hq%init_years_subseteq. apply py_in_false.
      intros Hin. by apply Hout, Hq.
Qed.

(** ** The merged dictionary *)

(** C38. The catalogue holds eighteen questions under eighteen distinct
    identifiers: no identifier is used in two categories or twice in one;
    the merged dictionary iterates them category by category in the order
    written, and each is stored under its own [question_id]. *)
Theorem init_all_ids :
  NoDup (catalogue_items __init__).*1 ∧
  dict_keys (get_all_questions __init__) = all_question_ids ∧
  dict_len (get_all_questions __init__) = 18 ∧
  question_id <$> dict_values (get_all_questions __init__) = all_question_ids.
Proof. split_and!; [apply laws_ids_unique | by vm_compute..]. Qed.

(** ** [get_longitudinal_questions], for every threshold *)

Lemma init_keys : dict_keys (get_all_questions __init__) = all_question_ids.
Proof. by vm_compute. Qed.

Lemma between_1_5 m : 0 < m ≤ 5 → m ∈ [1; 2; 3; 4; 5].
Proof.
  intros Hm. assert (∃ n, m = Z.of_nat n + 1 ∧ (n < 5)%nat) as (n & -> & Hn).
  { exists (Z.to_nat (m - 1)). lia. }
  do 5 (destruct n as [|n]; [set_solver|]). lia.
Qed.

(** C24. For every threshold, the questions [get_longitudinal_questions]
    returns are the ones tabulated in [ids_by_span], in that order: all
    eighteen up to 1, ten at 2, eight at 3, five at 4, one at 5 and none
    above. *)
Theorem init_by_span m :
  dict_keys (get_longitudinal_questions __init__ (Some m)) = ids_by_span m.
Proof.
  unfold get_longitudinal_questions. simpl.
  destruct (decide (m ≤ 0)) as [Hm|Hm].
  { rewrite comp_all_all.
    - unfold ids_by_span. rewrite decide_True by lia. apply init_keys.
    - intros qid q _. apply spans_at_least_true.
      pose proof (py_len_nonneg (years_available q)). lia. }
  destruct (decide (5 < m)) as [Hm'|Hm'].
  { rewrite comp_all_none.
    - unfold ids_by_span. by repeat (rewrite decide_False by lia).
    - intros qid q Hq%init_span_le_5. apply spans_at_least_false. lia. }
  assert (m ∈ [1; 2; 3; 4; 5]) as Hin by (apply between_1_5; lia).
  repeat (apply elem_of_cons in Hin as [->|Hin]);
    [by vm_compute.. | by apply elem_of_nil in Hin].
Qed.

(** The call without argument uses the threshold 2. *)
Lemma init_longitudinal_default :
  get_longitudinal_questions __init__ None =
  get_longitudinal_questions __init__ (Some 2) ∧
  dict_keys (get_longitudinal_questions __init__ None) =
    ["open_access_attitude"; "open_data_attitude"; "open_peer_review_attitude";
     "preprinting_attitude"; "credit_for_sharing"; "fair_principles_awareness";
     "job_title"; "research_area"; "publication_history"; "organization_type"].
Proof. split; [done | by vm_compute]. Qed.

(** ** [get_core_trend_questions] *)

(** C25. The core trend questions are the four attitude questions; a
    demographic question with five years is longitudinal at threshold 3 and
    is not a core trend question. *)
Theorem init_core_trend :
  dict_keys (get_core_trend_questions __init__) =
    ["open_access_attitude"; "open_data_attitude"; "open_peer_review_attitude";
     "preprinting_attitude"] ∧
  get_longitudinal_questions __init__ (Some 3) !! "job_title" = Some job_title ∧
  get_core_trend_questions __init__ !! "job_title" = None.
Proof. split_and!; by vm_compute. Qed.

(** A core question asked in one year only is not a longitudinal question. *)
Lemma init_core_not_longitudinal :
  core_questions __init__ !! "data_sharing_frequency" = Some data_sharing_frequency ∧
  get_longitudinal_questions __init__ None !! "data_sharing_frequency" = None.
Proof. split; by vm_compute. Qed.

(** When a later category reuses a core identifier, a core trend question
    need not be a longitudinal question: the uniqueness of identifiers is
    what [core_trend_longitudinal] rests on. *)
Lemma shadowed_core_trend_not_longitudinal :
  schema_wf shadowed_schema ∧
  get_core_trend_questions shadowed_schema !! "open_access_attitude" =
    Some open_access_attitude ∧
  get_longitudinal_questions shadowed_schema (Some 3) !! "open_access_attitude" =
    None.
Proof. split_and!; [apply (bool_decide_unpack _) | |]; by vm_compute. Qed.

(** ** The theorems of [Queries] at the catalogue *)

Lemma shadowed_schema_wf : schema_wf shadowed_schema.
Proof. apply (bool_decide_unpack _). by vm_compute. Qed.

Lemma no_question_in_2020 qid q :
  get_all_questions __init__ !! qid = Some q → 2020 ∉ years_available q.
Proof.
  intros Hq%init_years_subseteq Hin%Hq. unfold survey_years in Hin. set_solver.
Qed.

Lemma init_core_wf : dict_wf (core_questions __init__).
Proof. by apply schema_wf_unfold, init_schema_wf. Qed.

Lemma get_all_questions_last_wins_witness :
  schema_wf shadowed_schema ∧
  (get_all_questions shadowed_schema !! "open_access_attitude" =
     Some data_sharing_frequency ↔
   historical_questions shadowed_schema !! "open_access_attitude" =
     Some data_sharing_frequency ∨
   historical_questions shadowed_schema !! "open_access_attitude" = None ∧
   (supplementary_questions shadowed_schema !! "open_access_attitude" =
      Some data_sharing_frequency ∨
    supplementary_questions shadowed_schema !! "open_access_attitude" = None ∧
    (demographic_questions shadowed_schema !! "open_access_attitude" =
       Some data_sharing_frequency ∨
     demographic_questions shadowed_schema !! "open_access_attitude" = None ∧
     core_questions shadowed_schema !! "open_access_attitude" =
       Some data_sharing_frequency))).
Proof.
  split; [apply shadowed_schema_wf|].
  apply (get_all_questions_last_wins shadowed_schema _ _ shadowed_schema_wf).
Defined.

Lemma get_all_questions_keys_witness :
  schema_wf __init__ ∧
  ("job_title" ∈ dict_keys (get_all_questions __init__) ↔
   ∃ d, d ∈ categories __init__ ∧ "job_title" ∈ dict_keys d).
Proof.
  split; [apply init_schema_wf|].
  apply (get_all_questions_keys __init__ "job_title" init_schema_wf).
Defined.

Lemma get_questions_by_year_none_witness : get_questions_by_year __init__ 2020 = ∅.
Proof. apply (get_questions_by_year_none __init__ 2020 no_question_in_2020). Defined.

Lemma get_longitudinal_questions_nonpositive_witness :
  get_longitudinal_questions __init__ (Some (-1)) = get_all_questions __init__.
Proof. apply (get_longitudinal_questions_nonpositive __init__ (-1)). lia. Defined.

Lemma get_longitudinal_questions_above_witness :
  get_longitudinal_questions __init__ (Some 6) = ∅.
Proof.
  apply (get_longitudinal_questions_above __init__ 6).
  intros qid q Hq%init_span_le_5. lia.
Defined.

Lemma get_longitudinal_questions_antitone_witness :
  get_longitudinal_questions __init__ (Some 2) !! "job_title" = Some job_title.
Proof.
  apply (get_longitudinal_questions_antitone __init__ 2 3); [lia | by vm_compute].
Defined.

Lemma get_core_trend_questions_spec_witness :
  dict_wf (core_questions __init__) ∧
  (get_core_trend_questions __init__ !! "preprinting_attitude" =
     Some preprinting_attitude ↔
   core_questions __init__ !! "preprinting_attitude" = Some preprinting_attitude ∧
   3 ≤ py_len (years_available preprinting_attitude)).
Proof.
  split; [apply init_core_wf|].
  apply (get_core_trend_questions_spec __init__ _ _ init_core_wf).
Defined.

Lemma get_core_trend_questions_filter_witness :
  dict_items (get_core_trend_questions __init__) =
    filter (λ kv, 3 ≤ py_len (years_available kv.2))
      (dict_items (core_questions __init__)).
Proof. apply get_core_trend_questions_filter, init_core_wf. Defined.

Lemma get_core_trend_questions_order_witness :
  dict_keys (get_core_trend_questions __init__)
    `sublist_of` dict_keys (core_questions __init__).
Proof. apply (get_core_trend_questions_order __init__ init_core_wf). Defined.

Lemma get_all_questions_concat_witness :
  dict_items (get_all_questions __init__) =
    (dict_items (core_questions __init__) ++
     dict_items (demographic_questions __init__) ++
     dict_items (supplementary_questions __init__) ++
     dict_items (historical_questions __init__))%list ∧
  dict_len (get_all_questions __init__) =
    dict_len (core_questions __init__) + dict_len (demographic_questions __init__) +
    dict_len (supplementary_questions __init__) +
    dict_len (historical_questions __init__).
Proof. apply (get_all_questions_concat __init__), laws_ids_unique. Defined.

Lemma get_all_questions_key_is_id_witness :
  question_id open_access_attitude = "open_access_attitude".
Proof. apply (get_all_questions_key_is_id __init__ _ _ init_open_access). Defined.

Lemma core_trend_longitudinal_witness :
  get_longitudinal_questions __init__ (Some 3) !! "preprinting_attitude" =
    Some preprinting_attitude.
Proof. apply (core_trend_longitudinal __init__); [apply laws_ids_unique | by vm_compute]. Defined.

Lemma get_questions_by_year_column_witness :
  is_Some (column_mappings open_access_attitude !! 2023).
Proof.
  apply (get_questions_by_year_column __init__ 2023 "open_access_attitude").
  by vm_compute.
Defined.

Lemma get_longitudinal_questions_one_witness :
  get_longitudinal_questions __init__ (Some 1) = get_all_questions __init__.
Proof. apply (get_longitudinal_questions_one __init__). Defined.

Lemma years_counted_distinct_witness :
  py_len (years_available open_access_attitude) =
    Z.of_nat (size (list_to_set (years_available open_access_attitude) : gset Z)).
Proof. apply (years_counted_distinct __init__ _ _ init_open_access). Defined.
