(* ===== verification/Harmonize.v ===== *)
(** * The harmonisation utilities

    [harmonize_response_scale] and [create_harmonized_column_mapping]
    ([src/unified_data_schema.py], lines 326 to 342).  The first is written
    in the monad [py], with [list.index] and subscription able to raise as
    in Python; the theorems show that it never does, that it equals the
    pure reference [harmonize_ref], and what it does between the named
    scales of [ResponseScale].  The second is the loop the code runs over
    the merged dictionary of a freshly built schema. *)

From S2P Require Import Prelude PyDict Schema CatalogueData Queries CatalogueFacts.

Set Warnings "-clear-no-such-hyp".
#[local] Open Scope string_scope.
#[local] Open Scope Z_scope.

Implicit Types (response : string) (source_scale target_scale : list string).

(** ** The functions *)

Definition harmonize_response_scale response source_scale target_scale :
    py string :=
  if py_in response source_scale then
    idx ← py_index response source_scale;
    if idx <? py_len target_scale then py_getitem target_scale idx
    else Ok response
  else Ok response.

(** The reference: the option of the target at the first position of the
    response in the source, the response itself when there is none. *)
Definition harmonize_ref response source_scale target_scale : string :=
  match list_index response source_scale with
  | Some n => default response (target_scale !! n)
  | None => response
  end.

(** The body of the loop: [mapping[qid] = question.column_mappings]. *)
Definition column_mapping_of (all_questions : dict string QuestionMapping) :
    dict string (dict Z string) :=
  items_build (λ qid question, column_mappings question)
    (dict_items all_questions) ∅.

Definition create_harmonized_column_mapping : dict string (dict Z string) :=
  let schema := __init__ in
  column_mapping_of (get_all_questions schema).

(** ** [harmonize_response_scale] *)

(** C5. The function never raises, and computes the reference. *)
Theorem harmonize_response_scale_ref response source_scale target_scale :
  harmonize_response_scale response source_scale target_scale =
    Ok (harmonize_ref response source_scale target_scale).
Proof.
  unfold harmonize_response_scale, harmonize_ref, py_in, py_index.
  destruct (list_index response source_scale) as [n|] eqn:Hn.
  - rewrite bool_decide_eq_true_2 by (apply list_index_is_Some; eauto).
    py_simpl. apply py_getitem_guarded.
  - by rewrite bool_decide_eq_false_2 by (by apply list_index_None).
Qed.

(** The two paths of the function, by the position of the response. *)
Lemma harmonize_found response source_scale target_scale n :
  list_index response source_scale = Some n →
  harmonize_response_scale response source_scale target_scale =
    Ok (default response (target_scale !! n)).
Proof.
  intros Hn. unfold harmonize_response_scale, py_in, py_index.
  rewrite bool_decide_eq_true_2 by (apply list_index_is_Some; eauto).
  rewrite Hn. py_simpl. apply py_getitem_guarded.
Qed.

Lemma harmonize_absent response source_scale target_scale :
  list_index response source_scale = None →
  harmonize_response_scale response source_scale target_scale = Ok response.
Proof.
  intros Hn%list_index_None. unfold harmonize_response_scale, py_in.
  by rewrite bool_decide_eq_false_2.
Qed.

(** C18. A response that is not an option of the source scale is returned
    unchanged. *)
Theorem harmonize_not_in_source response source_scale target_scale :
  response ∉ source_scale →
  harmonize_response_scale response source_scale target_scale = Ok response.
Proof. intros Hin%list_index_None. by apply harmonize_absent. Qed.

Lemma harmonize_not_in_source_witness :
  harmonize_response_scale "Unknown" (ResponseScale_value AGREEMENT_5)
    (ResponseScale_value FREQUENCY_4) = Ok "Unknown".
Proof. apply harmonize_not_in_source. by apply (bool_decide_unpack _). Defined.

(** C17. A response whose position the target scale does not have is returned
    unchanged. *)
Theorem harmonize_target_short response source_scale target_scale n :
  list_index response source_scale = Some n →
  py_len target_scale ≤ Z.of_nat n →
  harmonize_response_scale response source_scale target_scale = Ok response.
Proof.
  intros Hn Hlen. rewrite (harmonize_found _ _ _ n) by done.
  rewrite lookup_ge_None_2; [done | unfold py_len in Hlen; lia].
Qed.

Lemma harmonize_target_short_witness :
  harmonize_response_scale "Strongly agree" (ResponseScale_value AGREEMENT_5)
    (ResponseScale_value FREQUENCY_4) = Ok "Strongly agree".
Proof. by apply (harmonize_target_short _ _ _ 4%nat). Defined.

(** C19. Otherwise the result is the option of the target scale at the position
    of the first occurrence of the response in the source scale. *)
Theorem harmonize_positional response source_scale target_scale n x :
  list_index response source_scale = Some n →
  target_scale !! n = Some x →
  harmonize_response_scale response source_scale target_scale = Ok x.
Proof. intros Hn Hx. rewrite (harmonize_found _ _ _ n) by done. by rewrite Hx. Qed.

Lemma harmonize_positional_witness :
  harmonize_response_scale "Neutral" (ResponseScale_value AGREEMENT_5)
    (ResponseScale_value FREQUENCY_4) = Ok "Sometimes".
Proof. by apply (harmonize_positional _ _ _ 2%nat). Defined.

(** The result is the response itself or an option of the target scale. *)
Lemma harmonize_result response source_scale target_scale :
  ∃ x, harmonize_response_scale response source_scale target_scale = Ok x ∧
       (x = response ∨ x ∈ target_scale).
Proof.
  destruct (list_index response source_scale) as [n|] eqn:Hn.
  - rewrite (harmonize_found _ _ _ n) by done. eexists; split; [done|].
    destruct (target_scale !! n) as [x|] eqn:Hx; simpl; [|by left].
    right. by eapply list_elem_of_lookup_2.
  - rewrite harmonize_absent by done. eauto.
Qed.

(** C36. Harmonising a scale to itself changes nothing. *)
Theorem harmonize_same_scale response scale :
  harmonize_response_scale response scale scale = Ok response.
Proof.
  destruct (list_index response scale) as [n|] eqn:Hn;
    [|by apply harmonize_absent].
  rewrite (harmonize_found _ _ _ n) by done.
  apply list_index_lookup in Hn. by rewrite Hn.
Qed.

(** C33. When the target has a position for every option of the source, every
    response of the source is translated to an option of the target. *)
Theorem harmonize_translates response source_scale target_scale :
  response ∈ source_scale →
  py_len source_scale ≤ py_len target_scale →
  ∃ x, harmonize_response_scale response source_scale target_scale = Ok x ∧
       x ∈ target_scale.
Proof.
  intros [n Hn]%list_index_is_Some Hlen. unfold py_len in Hlen.
  pose proof (list_index_lt _ _ _ Hn).
  destruct (lookup_lt_is_Some_2 target_scale n) as [x Hx]; [lia|].
  exists x. rewrite (harmonize_found _ _ _ n), Hx by done.
  split; [done | by eapply list_elem_of_lookup_2].
Qed.

Lemma harmonize_translates_witness :
  ∃ x, harmonize_response_scale "Often" (ResponseScale_value FREQUENCY_4_ALT)
         (ResponseScale_value AGREEMENT_5) = Ok x ∧
       x ∈ ResponseScale_value AGREEMENT_5.
Proof.
  apply harmonize_translates; [by apply (bool_decide_unpack _) | by vm_compute].
Defined.

(** C16. Into a target scale without repetition that is at least as long as
    the source scale, harmonising a response of the source and harmonising
    the result back returns the original response. *)
Theorem harmonize_roundtrip response source_scale target_scale x :
  NoDup target_scale →
  py_len source_scale ≤ py_len target_scale →
  response ∈ source_scale →
  harmonize_response_scale response source_scale target_scale = Ok x →
  harmonize_response_scale x target_scale source_scale = Ok response.
Proof.
  intros Ht Hlen [n Hn]%list_index_is_Some. unfold py_len in Hlen.
  pose proof (list_index_lt _ _ _ Hn). pose proof (list_index_lookup _ _ _ Hn) as Hr.
  destruct (lookup_lt_is_Some_2 target_scale n) as [y Hy]; [lia|].
  rewrite (harmonize_found _ _ _ n), Hy by done. intros [= <-].
  rewrite (harmonize_found _ _ _ n) by (by apply list_index_NoDup).
  by rewrite Hr.
Qed.

Lemma harmonize_roundtrip_witness :
  harmonize_response_scale "Often" (ResponseScale_value FREQUENCY_4_ALT)
    (ResponseScale_value FREQUENCY_4) = Ok "Sometimes".
Proof.
  apply (harmonize_roundtrip "Sometimes" (ResponseScale_value FREQUENCY_4));
    [apply ResponseScale_value_options_NoDup | by vm_compute |
     by apply (bool_decide_unpack _) | done].
Defined.

(** ** Between the named scales *)

(** A translation table [f] between two given scales is checked on the
    options of the source; every other response is passed through. *)
Lemma harmonize_table (f : string → string) response source_scale target_scale :
  Forall (λ r, harmonize_ref r source_scale target_scale = f r) source_scale →
  (response ∉ source_scale → f response = response) →
  harmonize_response_scale response source_scale target_scale = Ok (f response).
Proof.
  intros Hall Hout. destruct (list_index response source_scale) as [n|] eqn:Hn.
  - rewrite (harmonize_found _ _ _ n) by done. f_equal.
    rewrite Forall_forall in Hall. rewrite <-Hall by (apply list_index_is_Some; eauto).
    unfold harmonize_ref. by rewrite Hn.
  - rewrite harmonize_absent by done. f_equal. symmetry.
    by apply Hout, list_index_None.
Qed.

(** Close a goal [harmonize_table] leaves: the table on the options by
    evaluation, the pass-through by cases on the response. *)
Ltac check_table f :=
  apply (harmonize_table f);
    [apply (bool_decide_unpack _); by vm_compute
    |intros Hout; repeat case_decide; subst; try done;
     exfalso; apply Hout; by apply (bool_decide_unpack _)].

(** C37. Each scale and its alternative wording differ in the options the
    alternative rewords: harmonisation rewrites these and leaves every
    other response, option of the scale or not, unchanged. *)
Theorem harmonize_alt_scales response :
  harmonize_response_scale response (ResponseScale_value AGREEMENT_5)
      (ResponseScale_value AGREEMENT_5_ALT) =
    Ok (if decide (response = "Neutral") then "Neutral / No opinion"
        else response) ∧
  harmonize_response_scale response (ResponseScale_value FREQUENCY_4)
      (ResponseScale_value FREQUENCY_4_ALT) =
    Ok (if decide (response = "Sometimes") then "Often"
        else if decide (response = "Frequently") then "Always"
        else response) ∧
  harmonize_response_scale response (ResponseScale_value YES_NO_UNSURE)
      (ResponseScale_value YES_NO_DONT_KNOW) =
    Ok (if decide (response = "Unsure") then "Don't know" else response).
Proof.
  split_and!.
  - check_table (λ r, if decide (r = "Neutral") then "Neutral / No opinion" else r).
  - check_table (λ r, if decide (r = "Sometimes") then "Often"
                      else if decide (r = "Frequently") then "Always" else r).
  - check_table (λ r, if decide (r = "Unsure") then "Don't know" else r).
Qed.

(** A response passed through unchanged can be an option of the target
    scale all the same: membership in the target does not tell a translated
    response from an untranslated one. *)
Lemma harmonize_passthrough_in_target :
  ("Yes" ∉ ResponseScale_value FREQUENCY_4) ∧
  harmonize_response_scale "Yes" (ResponseScale_value FREQUENCY_4)
    (ResponseScale_value YES_NO_UNSURE) = Ok "Yes" ∧
  "Yes" ∈ ResponseScale_value YES_NO_UNSURE.
Proof. repeat split; by apply (bool_decide_unpack _). Qed.

(** ** [create_harmonized_column_mapping] *)

Lemma column_mapping_of_lookup all_questions qid :
  dict_wf all_questions →
  column_mapping_of all_questions !! qid = column_mappings <$> all_questions !! qid.
Proof. intros Hwf. apply (items_build_lookup (λ _ q, column_mappings q)), Hwf. Qed.

(** C7. The mapping has an entry for exactly the questions of the catalogue, in
    the catalogue's order, and the entry is the question's
    [column_mappings]. *)
Theorem create_harmonized_column_mapping_spec :
  dict_keys create_harmonized_column_mapping =
    dict_keys (get_all_questions __init__) ∧
  ∀ qid, create_harmonized_column_mapping !! qid =
           column_mappings <$> get_all_questions __init__ !! qid.
Proof.
  unfold create_harmonized_column_mapping. split.
  - apply (items_build_keys (λ _ q, column_mappings q)), all_wf.
  - intros qid. apply column_mapping_of_lookup, all_wf.
Qed.

(** C10. The entry of [open_access_attitude] is the mapping the documentation
    gives. *)
Theorem create_harmonized_column_mapping_open_access :
  create_harmonized_column_mapping !! "open_access_attitude" =
    Some (Dict [(2021, "Q2.7_1"); (2022, "Q2.11_1"); (2023, "Q2.10.a");
                (2024, "Q12_1")]).
Proof.
  unfold create_harmonized_column_mapping.
  rewrite column_mapping_of_lookup by apply all_wf. by vm_compute.
Qed.

(** C23. For a question available in a year the mapping gives the source column
    of that year. *)
Theorem create_harmonized_column_mapping_locates year qid q :
  get_questions_by_year __init__ year !! qid = Some q →
  ∃ columns column,
    create_harmonized_column_mapping !! qid = Some columns ∧
    columns !! year = Some column.
Proof.
  unfold get_questions_by_year, create_harmonized_column_mapping.
  rewrite comp_all_lookup, available_in_true. intros [Hq Hyear].
  rewrite column_mapping_of_lookup, Hq by apply all_wf. simpl.
  apply (all_entry_ok __init__) in Hq as [_ _ _ _ _ Hcols].
  destruct (proj2 (dict_lookup_is_Some (column_mappings q) year)) as [c Hc]; eauto.
Qed.

Lemma create_harmonized_column_mapping_locates_witness :
  ∃ columns column,
    create_harmonized_column_mapping !! "credit_for_sharing" = Some columns ∧
    columns !! 2019 = Some column.
Proof.
  apply (create_harmonized_column_mapping_locates 2019 _ credit_for_sharing).
  by vm_compute.
Defined.
