(* ===== verification/AbstractSpec.v ===== *)
(** * The catalogue as finite maps, and the refinement

    What the queries promise, stated without any order: a catalogue is four
    finite maps from identifiers to questions, the full catalogue is their
    union in which later categories win, and each query is a filter of a
    map.  The refinement theorems say that the queries on insertion-ordered
    dictionaries compute these maps: [dict_to_map] commutes with every
    query. *)

From S2P Require Import Prelude PyDict Schema CatalogueData Queries CatalogueFacts.
From S2P Require Import Harmonize.
From stdpp Require Import gmap.

Set Warnings "-clear-no-such-hyp".
#[local] Open Scope Z_scope.

(** ** The specification *)

Module Spec.

Record catalogue : Type := mkCatalogue {
  core : gmap string QuestionMapping;
  demographic : gmap string QuestionMapping;
  supplementary : gmap string QuestionMapping;
  historical : gmap string QuestionMapping;
}.

(** The union of the categories; [∪] on maps keeps the left value, so the
    category merged last stands first. *)
Definition all_questions (c : catalogue) : gmap string QuestionMapping :=
  historical c ∪ (supplementary c ∪ (demographic c ∪ core c)).

Definition questions_by_year (c : catalogue) (year : Z) :
    gmap string QuestionMapping :=
  filter (λ kv, year ∈ years_available kv.2) (all_questions c).

Definition longitudinal_questions (c : catalogue) (min_years : Z) :
    gmap string QuestionMapping :=
  filter (λ kv, min_years ≤ py_len (years_available kv.2)) (all_questions c).

Definition core_trend_questions (c : catalogue) : gmap string QuestionMapping :=
  filter (λ kv, 3 ≤ py_len (years_available kv.2)) (core c).

Definition column_mapping (c : catalogue) : gmap string (gmap Z string) :=
  (λ q, dict_to_map (column_mappings q)) <$> all_questions c.

End Spec.

(** The specification-level catalogue a schema value denotes. *)
Definition abstract (self : UnifiedSchema) : Spec.catalogue := {|
  Spec.core := dict_to_map (core_questions self);
  Spec.demographic := dict_to_map (demographic_questions self);
  Spec.supplementary := dict_to_map (supplementary_questions self);
  Spec.historical := dict_to_map (historical_questions self);
|}.

(** Two schema values are equal in Python's sense when their categories
    are, whatever the order of the entries. *)
Definition schema_equiv (s1 s2 : UnifiedSchema) : Prop :=
  Forall2 (≡) (categories s1) (categories s2).

(** The catalogue with its core questions in the opposite order. *)
Definition reordered_schema : UnifiedSchema := {|
  core_questions := Dict (reverse (dict_items _define_core_questions));
  demographic_questions := _define_demographic_questions;
  supplementary_questions := _define_supplementary_questions;
  historical_questions := _define_historical_questions;
|}.

(** ** Shared lemmas *)

Lemma filter_to_map (f : string → QuestionMapping → bool)
    (P : string * QuestionMapping → Prop) `{!∀ kv, Decision (P kv)}
    (d : dict string QuestionMapping) :
  dict_wf d → (∀ qid q, f qid q = true ↔ P (qid, q)) →
  dict_to_map (dict_comp f d) = filter P (dict_to_map d).
Proof.
  intros Hd Hf. rewrite dict_to_map_comp by done.
  apply map_filter_ext. intros qid q _. simpl. by rewrite Is_true_true, Hf.
Qed.

Lemma all_to_map self :
  schema_wf self →
  dict_to_map (get_all_questions self) = Spec.all_questions (abstract self).
Proof.
  intros (Hc & Hd & Hs & Hh)%schema_wf_unfold.
  unfold get_all_questions, Spec.all_questions. simpl.
  rewrite !dict_to_map_update, dict_to_map_empty by done.
  by rewrite (right_id_L ∅ (∪)).
Qed.

Lemma comp_to_map (f : string → QuestionMapping → bool)
    (P : string * QuestionMapping → Prop) `{!∀ kv, Decision (P kv)} self :
  schema_wf self → (∀ qid q, f qid q = true ↔ P (qid, q)) →
  dict_to_map (dict_comp f (get_all_questions self)) =
    filter P (Spec.all_questions (abstract self)).
Proof.
  intros Hwf Hf. rewrite <-all_to_map by done.
  apply filter_to_map; [apply all_wf | done].
Qed.

Lemma schema_equiv_abstract s1 s2 :
  schema_equiv s1 s2 → abstract s1 = abstract s2.
Proof.
  unfold schema_equiv, categories, abstract.
  intros (Hc & (Hd & (Hs & (Hh & _)%Forall2_cons)%Forall2_cons)%Forall2_cons)%Forall2_cons.
  by rewrite Hc, Hd, Hs, Hh.
Qed.

(** The loop of [create_harmonized_column_mapping] over the merged
    dictionary of any schema computes the column mappings of the union. *)
Lemma column_mapping_of_to_map self :
  schema_wf self →
  dict_to_map <$> dict_to_map (column_mapping_of (get_all_questions self)) =
    Spec.column_mapping (abstract self).
Proof.
  intros Hwf. apply map_eq. intros qid. unfold Spec.column_mapping.
  rewrite !lookup_fmap, <-all_to_map, !lookup_dict_to_map by done.
  rewrite column_mapping_of_lookup by apply all_wf.
  by destruct (get_all_questions self !! qid).
Qed.

(** ** The refinement theorems *)

(** C11. [get_all_questions] computes the union of the categories. *)
Theorem get_all_questions_refines self :
  schema_wf self →
  dict_to_map (get_all_questions self) = Spec.all_questions (abstract self) ∧
  dom (dict_to_map (get_all_questions self)) =
    dom (Spec.core (abstract self)) ∪ dom (Spec.demographic (abstract self)) ∪
    dom (Spec.supplementary (abstract self)) ∪ dom (Spec.historical (abstract self)).
Proof.
  intros Hwf. rewrite all_to_map by done. split; [done|].
  unfold Spec.all_questions. rewrite !dom_union_L. set_solver.
Qed.

(** C12. [get_questions_by_year] computes the filter of the union by year. *)
Theorem get_questions_by_year_refines self year :
  schema_wf self →
  dict_to_map (get_questions_by_year self year) =
    Spec.questions_by_year (abstract self) year.
Proof. intros Hwf. apply comp_to_map; [done|]. intros. apply available_in_true. Qed.

(** C13. [get_longitudinal_questions] computes the filter of the union by span,
    with the default threshold 2. *)
Theorem get_longitudinal_questions_refines self min_years :
  schema_wf self →
  dict_to_map (get_longitudinal_questions self min_years) =
    Spec.longitudinal_questions (abstract self) (default 2 min_years).
Proof. intros Hwf. apply comp_to_map; [done|]. intros. apply spans_at_least_true. Qed.

(** C14. [get_core_trend_questions] computes the filter of the core category. *)
Theorem get_core_trend_questions_refines self :
  schema_wf self →
  dict_to_map (get_core_trend_questions self) =
    Spec.core_trend_questions (abstract self).
Proof.
  intros (Hc & _)%schema_wf_unfold.
  apply filter_to_map; [done|]. intros. apply spans_at_least_true.
Qed.

(** C15. [create_harmonized_column_mapping] computes, for every question of the
    union of the categories of the built schema, its column mapping: the
    two levels of dictionaries are the two levels of finite maps. *)
Theorem create_harmonized_column_mapping_refines :
  dict_to_map <$> dict_to_map create_harmonized_column_mapping =
    Spec.column_mapping (abstract __init__).
Proof.
  unfold create_harmonized_column_mapping.
  apply column_mapping_of_to_map, init_schema_wf.
Qed.

(** Schemas that are equal up to the order of their entries give equal
    answers up to order, to every query. *)
Lemma queries_respect_equality s1 s2 year min_years :
  schema_wf s1 → schema_wf s2 → schema_equiv s1 s2 →
  get_all_questions s1 ≡ get_all_questions s2 ∧
  get_questions_by_year s1 year ≡ get_questions_by_year s2 year ∧
  get_longitudinal_questions s1 min_years ≡
    get_longitudinal_questions s2 min_years ∧
  get_core_trend_questions s1 ≡ get_core_trend_questions s2.
Proof.
  intros Hwf1 Hwf2 Heq%schema_equiv_abstract. rewrite !dict_equiv_to_map.
  pose proof Hwf1 as (Hc1 & _)%schema_wf_unfold.
  pose proof Hwf2 as (Hc2 & _)%schema_wf_unfold.
  unfold get_questions_by_year, get_longitudinal_questions,
    get_core_trend_questions.
  rewrite !all_to_map, !dict_to_map_comp by (done || apply all_wf).
  rewrite !all_to_map by done.
  change (dict_to_map (core_questions ?s)) with (Spec.core (abstract s)).
  by rewrite Heq.
Qed.

(** ** The theorems at the catalogue *)

Lemma reordered_schema_wf : schema_wf reordered_schema.
Proof. apply (bool_decide_unpack _). by vm_compute. Qed.

Lemma reordered_schema_equiv : schema_equiv __init__ reordered_schema.
Proof.
  unfold schema_equiv, categories. constructor; [|done].
  apply dict_equiv_Permutation;
    [apply init_core_wf | by apply schema_wf_unfold, reordered_schema_wf |].
  simpl. by rewrite reverse_Permutation.
Qed.

Lemma get_all_questions_refines_witness :
  dict_to_map (get_all_questions __init__) = Spec.all_questions (abstract __init__) ∧
  dom (dict_to_map (get_all_questions __init__)) =
    dom (Spec.core (abstract __init__)) ∪ dom (Spec.demographic (abstract __init__)) ∪
    dom (Spec.supplementary (abstract __init__)) ∪
    dom (Spec.historical (abstract __init__)).
Proof. apply (get_all_questions_refines __init__ init_schema_wf). Defined.

Lemma get_questions_by_year_refines_witness :
  dict_to_map (get_questions_by_year __init__ 2022) =
    Spec.questions_by_year (abstract __init__) 2022.
Proof. apply (get_questions_by_year_refines __init__ 2022 init_schema_wf). Defined.

Lemma get_longitudinal_questions_refines_witness :
  dict_to_map (get_longitudinal_questions __init__ None) =
    Spec.longitudinal_questions (abstract __init__) 2.
Proof. apply (get_longitudinal_questions_refines __init__ None init_schema_wf). Defined.

Lemma get_core_trend_questions_refines_witness :
  dict_to_map (get_core_trend_questions __init__) =
    Spec.core_trend_questions (abstract __init__).
Proof. apply (get_core_trend_questions_refines __init__ init_schema_wf). Defined.

Lemma queries_respect_equality_witness :
  get_all_questions __init__ ≡ get_all_questions reordered_schema ∧
  get_questions_by_year __init__ 2024 ≡ get_questions_by_year reordered_schema 2024 ∧
  get_longitudinal_questions __init__ None ≡
    get_longitudinal_questions reordered_schema None ∧
  get_core_trend_questions __init__ ≡ get_core_trend_questions reordered_schema.
Proof.
  apply (queries_respect_equality __init__ reordered_schema 2024 None
           init_schema_wf reordered_schema_wf reordered_schema_equiv).
Defined.
