(* ===== verification/Demo.v ===== *)
(** * The demonstration script

    The statements under [if __name__ == "__main__"]
    ([src/unified_data_schema.py], lines 345 to 360).  Standard output is
    the list of the strings [print] was called with, in order; [print]
    writes its argument and a newline, so the text on the console is these
    strings, each followed by a newline.  [str] of an integer is its decimal
    numeral and [str] of a list of integers the numerals between brackets,
    separated by a comma and a space. *)

From S2P Require Import Prelude PyDict Schema CatalogueData Queries CatalogueFacts.
From stdpp Require Import pretty.

Set Warnings "-clear-no-such-hyp".
#[local] Open Scope string_scope.
#[local] Open Scope list_scope.
#[local] Open Scope Z_scope.

(** ** Output as state *)

Definition IO (A : Type) : Type := list string → A * list string.

#[export] Instance IO_ret : MRet IO := λ A a out, (a, out).

#[export] Instance IO_bind : MBind IO := λ A B f m out,
  let '(a, out') := m out in f a out'.

(** [print(s)] *)
Definition print (s : string) : IO unit := λ out, (tt, out ++ [s]).

(** [for x in l: body(x)] *)
Fixpoint for_each {A} (l : list A) (body : A → IO unit) : IO unit :=
  match l with
  | [] => mret tt
  | x :: l' => body x ;; for_each l' body
  end.

(** What a script leaves on standard output when started with [out]. *)
Definition output (m : IO unit) (out : list string) : list string := (m out).2.

(** ** Formatting *)

(** [str(n)] *)
Definition str_int (n : Z) : string := pretty n.

(** [str(l)] for a list of integers. *)
Definition str_list_int (l : list Z) : string :=
  "[" +:+ String.concat ", " (str_int <$> l) +:+ "]".

(** The one-character string [chr(10)]. *)
Definition newline : string := String (Ascii.ascii_of_nat 10) EmptyString.

(** The line printed for one core trend question. *)
Definition core_trend_line (item : string * QuestionMapping) : string :=
  let '(qid, q) := item in
  "  " +:+ qid +:+ ": " +:+ str_int (py_len (years_available q)) +:+
  " years (" +:+ str_list_int (years_available q) +:+ ")".

(** ** The script *)

Definition main : IO unit :=
  let schema := __init__ in
  let core_questions := get_core_trend_questions schema in
  print "Core trend questions (3+ years):" ;;
  for_each (dict_items core_questions) (λ item, print (core_trend_line item)) ;;
  let questions_2024 := get_questions_by_year schema 2024 in
  print (newline +:+ "2024 questions available: " +:+
         str_int (dict_len questions_2024)) ;;
  let longitudinal := get_longitudinal_questions schema None in
  print (newline +:+ "Longitudinal questions (2+ years): " +:+
         str_int (dict_len longitudinal)).

(** The text the script is expected to print, one string per [print]. *)
Definition expected_output : list string :=
  ["Core trend questions (3+ years):";
   "  open_access_attitude: 4 years ([2021, 2022, 2023, 2024])";
   "  open_data_attitude: 4 years ([2021, 2022, 2023, 2024])";
   "  open_peer_review_attitude: 3 years ([2022, 2023, 2024])";
   "  preprinting_attitude: 3 years ([2022, 2023, 2024])";
   newline +:+ "2024 questions available: 8";
   newline +:+ "Longitudinal questions (2+ years): 10"].

(** ** Lemmas on output *)

Lemma output_bind (m : IO unit) (k : IO unit) out :
  output (m ;; k) out = output k (output m out).
Proof.
  unfold output, mbind, IO_bind. by destruct (m out) as [[] out'].
Qed.

Lemma output_print s out : output (print s) out = out ++ [s].
Proof. done. Qed.

(** A loop that prints one line per element appends the lines in order. *)
Lemma output_for_each_print {A} (f : A → string) (l : list A) out :
  output (for_each l (λ x, print (f x))) out = out ++ (f <$> l).
Proof.
  revert out. induction l as [|x l IH]; intros out; simpl.
  - by rewrite app_nil_r.
  - rewrite output_bind, IH, output_print. by rewrite <-app_assoc.
Qed.

Lemma str_int_inj : Inj (=) (=) str_int.
Proof. unfold str_int. apply _. Qed.

(** ** The script's output *)

(** The script appends to standard output a heading, one line per core
    trend question in the order of the core dictionary, and the two
    counts. *)
Lemma main_output_structure out :
  output main out =
    out ++
    ["Core trend questions (3+ years):"] ++
    (core_trend_line <$> dict_items (get_core_trend_questions __init__)) ++
    [newline +:+ "2024 questions available: " +:+
       str_int (dict_len (get_questions_by_year __init__ 2024));
     newline +:+ "Longitudinal questions (2+ years): " +:+
       str_int (dict_len (get_longitudinal_questions __init__ None))].
Proof.
  unfold main. rewrite !output_bind, !output_print, output_for_each_print.
  by rewrite <-!app_assoc.
Qed.

(** C9. Run from an empty output the script prints the expected text. *)
Theorem main_output : output main [] = expected_output.
Proof. rewrite main_output_structure. by vm_compute. Qed.

(** Every question line reports at least three years. *)
Lemma main_lines_three_years item :
  item ∈ dict_items (get_core_trend_questions __init__) →
  core_trend_line item ∈ output main [] ∧
  3 ≤ py_len (years_available item.2).
Proof.
  intros Hitem. split.
  - rewrite main_output_structure.
    do 2 (apply elem_of_app; right). apply elem_of_app; left.
    by apply list_elem_of_fmap_2.
  - destruct item as [qid q].
    apply (dict_lookup_Some _ _ _ (dict_wf_comp _ _)) in Hitem.
    apply dict_lookup_comp_Some in Hitem as [_ Hlen]; [|apply init_core_wf].
    by apply spans_at_least_true in Hlen.
Qed.

Lemma main_lines_three_years_witness :
  core_trend_line ("preprinting_attitude", preprinting_attitude) ∈ output main [] ∧
  3 ≤ py_len (years_available preprinting_attitude).
Proof.
  apply (main_lines_three_years ("preprinting_attitude", preprinting_attitude)).
  apply (bool_decide_unpack _). by vm_compute.
Defined.
